(** * Lightning execution bridge: a shallow embedding of
      [backend/scripts/lightning_executor.py]

    The orchestrator provisions a remote studio, clones a repository into
    it, runs an ordered list of shell commands under deadline guards and
    folds the outcomes into one report.  Everything the script does to the
    outside world (studio constructors, [studio.run], [signal.alarm],
    [subprocess.run], file writes) is modelled as an event appended to a
    trace; what the outside world answers is read from an environment
    record.  Diagnostic [print]s to stderr carry no contract and are left
    out.

    Strings are sequences of 8-bit characters; [lower] is the ASCII case
    mapping (Python's [str.lower] agrees with it on ASCII text).  The one
    place where the Unicode case mapping changes what the script
    guarantees, the length of the studio name, is embedded a second time
    on sequences of code points, in [Module Unicode].
    Time is counted in whole seconds. *)

From Stdlib Require Import String Ascii List NArith ZArith Lia Bool Arith.
From Stdlib Require Import Decimal DecimalString.
Import ListNotations.
Local Open Scope list_scope.
Local Open Scope string_scope.

(** ** Python string operations used by the script *)

Module PyStr.

(** [c.lower()] on one character. *)
Definition lower_char (c : ascii) : ascii :=
  let n := nat_of_ascii c in
  if ((65 <=? n)%nat && (n <=? 90)%nat)%bool then ascii_of_nat (n + 32) else c.

(** [s.lower()] *)
Fixpoint lower (s : string) : string :=
  match s with
  | EmptyString => EmptyString
  | String c s' => String (lower_char c) (lower s')
  end.

Definition is_upper (c : ascii) : bool :=
  let n := nat_of_ascii c in ((65 <=? n)%nat && (n <=? 90)%nat)%bool.

(** [sub in s] *)
Fixpoint contains (sub s : string) : bool :=
  match s with
  | EmptyString => prefix sub EmptyString
  | String _ s' => prefix sub s || contains sub s'
  end.

(** [s[:n]] *)
Fixpoint slice_to (n : nat) (s : string) : string :=
  match n, s with
  | S k, String c s' => String c (slice_to k s')
  | _, _ => EmptyString
  end.

(** [s.replace(old, new)] for a non-empty [old]: scan left to right; at a
    match emit [new] and skip the rest of the matched text. *)
Fixpoint replace_from (old new : string) (skip : nat) (s : string) : string :=
  match s with
  | EmptyString => EmptyString
  | String c s' =>
      match skip with
      | S k => replace_from old new k s'
      | O =>
          if prefix old s
          then new ++ replace_from old new (String.length old - 1) s'
          else String c (replace_from old new 0 s')
      end
  end.

Definition replace (old new s : string) : string := replace_from old new 0 s.

Definition is_empty (s : string) : bool :=
  match s with EmptyString => true | _ => false end.

(** [s.rstrip(c)] for a one-character argument. *)
Fixpoint rstrip (c : ascii) (s : string) : string :=
  match s with
  | EmptyString => EmptyString
  | String a s' =>
      let r := rstrip c s' in
      if is_empty r && Ascii.eqb a c then EmptyString else String a r
  end.

(** [s.split(sep)[-1]]: the text after the last separator. *)
Fixpoint split_last_from (sep : ascii) (cur s : string) : string :=
  match s with
  | EmptyString => cur
  | String a s' =>
      if Ascii.eqb a sep then split_last_from sep EmptyString s'
      else split_last_from sep (cur ++ String a EmptyString) s'
  end.

Definition split_last (sep : ascii) (s : string) : string :=
  split_last_from sep EmptyString s.

(** [str(n)] / [f"{n}"] for a non-negative integer. *)
Definition of_nat (n : nat) : string := NilEmpty.string_of_uint (Nat.to_uint n).

(** The same for a clock reading, [int(time.time())]. *)
Definition of_N (n : N) : string := NilEmpty.string_of_uint (N.to_uint n).

(** [chr(10).join(l)] *)
Fixpoint join (sep : string) (l : list string) : string :=
  match l with
  | [] => EmptyString
  | [x] => x
  | x :: rest => x ++ sep ++ join sep rest
  end.

(** [s.strip()] is only used for a diagnostic line and is not modelled. *)

Definition has_space (s : string) : bool := contains " " s.

Fixpoint no_upper (s : string) : bool :=
  match s with
  | EmptyString => true
  | String c s' => negb (is_upper c) && no_upper s'
  end.

End PyStr.

(** ** Data model *)

(** The three exception classes the script tells apart.  [TimeoutError] is
    the class the script itself declares and raises from its SIGALRM
    handler; [TimeoutExpired] is [subprocess.TimeoutExpired]; every other
    [Exception] is an [OtherError].  Each carries its [str(e)]. *)
Inductive exn : Type :=
| TimeoutError (msg : string)
| TimeoutExpired (msg : string)
| OtherError (msg : string).

Definition str (e : exn) : string :=
  match e with
  | TimeoutError m | TimeoutExpired m | OtherError m => m
  end.

Inductive outcome (A : Type) : Type :=
| Returned (a : A)
| Raised (e : exn).
Arguments Returned {A} a.
Arguments Raised {A} e.

(** One entry of [results['outputs']]. *)
Record CommandResult : Type := mkResult {
  command : string;
  stdout : string;
  stderr : string;
  exitCode : Z;
  cmd_success : bool
}.

(** The [results] dictionary. *)
Record Report : Type := mkReport {
  success : bool;
  outputs : list CommandResult;
  errors : list string
}.

(** Calls that leave the process, in the order they are issued. *)
Inductive Event : Type :=
| SignalHandler
| SignalAlarm (seconds : nat)
| StudioConnect (name teamspace user : string)
| StudioCreate (name teamspace user : string)
| StudioCreatePersonal (name : string)
| StudioStart
| Sleep (seconds : nat)
| StudioRun (cmd : string)
| StudioStop
| CliVersion
| WriteFile (path content : string)
| CliRunScript (path : string)
| RemoveFile (path : string).

(** What a remote call would do if nobody interrupted it: it takes
    [duration] whole seconds and then returns or raises. *)
Record response : Type := mkResponse {
  duration : nat;
  finish : outcome string
}.

(** A finished child process ([subprocess.CompletedProcess]). *)
Record CompletedProcess : Type := mkProc {
  returncode : Z;
  p_stdout : string;
  p_stderr : string
}.

Record proc_response : Type := mkProcResponse {
  p_duration : nat;
  p_finish : outcome CompletedProcess
}.

(** The environment of one run: [os.environ], the clock, and the answer
    of the outside world at every call site of the script. *)
Record Env : Type := mkEnv {
  LIGHTNING_API_KEY : option string;
  LIGHTNING_USER_ID : option string;
  LIGHTNING_USERNAME : option string;
  LIGHTNING_TEAMSPACE : option string;
  LIGHTNING_USE_CLI_FALLBACK : option string;
  clone_time : N;
  script_time : N;
  connect : response;
  create : response;
  create_personal : response;
  start : response;
  probe : response;
  preclean : response;
  clone : response;
  run_cmd : nat -> string -> response;
  cleanup : response;
  stop : response;
  stop_after_failure : response;
  cli_version : proc_response;
  write_script : outcome unit;
  cli_run : proc_response;
  remove_script : outcome unit
}.

(** The state one run threads through: the trace of calls made so far,
    the process-wide pending alarm (seconds left, [None] when no alarm is
    scheduled), and the two locals of [execute_in_cloud] its outer handler
    reads back, [studio] (assigned or still [None]) and [results]. *)
Record World : Type := mkWorld {
  trace : list Event;
  alarm : option nat;
  studio : bool;
  results : Report
}.

Definition initial_results : Report := mkReport true [] [].
Definition initial_world : World := mkWorld [] None false initial_results.

(** ** A state-and-exception monad for the script *)

Definition M (A : Type) : Type := World -> outcome A * World.

Definition ret {A} (a : A) : M A := fun w => (Returned a, w).

Definition bind {A B} (m : M A) (k : A -> M B) : M B :=
  fun w => match m w with
           | (Returned a, w') => k a w'
           | (Raised e, w') => (Raised e, w')
           end.

Definition raise {A} (e : exn) : M A := fun w => (Raised e, w).

(** [try: m  except Exception as e: h e] *)
Definition try_except {A} (m : M A) (h : exn -> M A) : M A :=
  fun w => match m w with
           | (Returned a, w') => (Returned a, w')
           | (Raised e, w') => h e w'
           end.

Declare Scope py_scope.
Delimit Scope py_scope with py.
Notation "x <- m ;; k" := (bind m (fun x => k))
  (at level 61, m at next level, right associativity) : py_scope.
Notation "m ;; k" := (bind m (fun _ => k))
  (at level 61, right associativity) : py_scope.
Local Open Scope py_scope.

Definition log (ev : Event) : M unit :=
  fun w => (Returned tt, mkWorld (trace w ++ [ev]) (alarm w) (studio w) (results w)).

Definition set_alarm (a : option nat) (w : World) : World :=
  mkWorld (trace w) a (studio w) (results w).

Definition get_results : M Report := fun w => (Returned (results w), w).

Definition modify_results (f : Report -> Report) : M unit :=
  fun w => (Returned tt, mkWorld (trace w) (alarm w) (studio w) (f (results w))).

Definition assign_studio : M unit :=
  fun w => (Returned tt, mkWorld (trace w) (alarm w) true (results w)).

Definition get_studio : M bool := fun w => (Returned (studio w), w).

(** [results['success'] = b] *)
Definition set_success (b : bool) (r : Report) : Report :=
  mkReport b (outputs r) (errors r).
(** [results['outputs'].append(o)] *)
Definition append_output (o : CommandResult) (r : Report) : Report :=
  mkReport (success r) (outputs r ++ [o]) (errors r).
(** [results['errors'].append(e)] *)
Definition append_error (e : string) (r : Report) : Report :=
  mkReport (success r) (outputs r) (errors r ++ [e]).
(** [results['errors'].extend(es)] *)
Definition extend_errors (es : list string) (r : Report) : Report :=
  mkReport (success r) (outputs r) (errors r ++ es).

(** ** Signals and remote calls *)

(** [signal.signal(signal.SIGALRM, timeout_handler)] *)
Definition signal_signal : M unit := log SignalHandler.

(** [signal.alarm(n)]: a positive [n] schedules the alarm in [n] seconds
    and replaces any pending one; [n = 0] schedules nothing and cancels a
    pending alarm. *)
Definition signal_alarm (n : nat) : M unit :=
  fun w => (Returned tt,
            mkWorld (trace w ++ [SignalAlarm n])
                    (if (n =? 0)%nat then None else Some n) (studio w) (results w)).

(** A blocking call into the outside world.  With no alarm pending it
    runs to its end.  With an alarm due in [b] seconds it runs to its end
    only when it takes less than [b] seconds; otherwise the alarm is
    delivered first and [timeout_handler] raises inside the call. *)
Definition remote (ev : Event) (r : response) : M string :=
  fun w =>
    let t := (trace w ++ [ev])%list in
    match alarm w with
    | None => (finish r, mkWorld t None (studio w) (results w))
    | Some b =>
        if (duration r <? b)%nat
        then (finish r, mkWorld t (Some (b - duration r)) (studio w) (results w))
        else (Raised (TimeoutError "Operation timed out"),
              mkWorld t None (studio w) (results w))
    end.

(** [run_with_timeout(func, timeout_seconds)] *)
Definition run_with_timeout {A} (func : M A) (timeout_seconds : nat) : M A :=
  signal_signal ;;
  signal_alarm timeout_seconds ;;
  try_except
    (result <- func ;;
     signal_alarm 0 ;;
     ret result)
    (fun e =>
       match e with
       | TimeoutError _ => signal_alarm 0 ;; raise e
       | _ => signal_alarm 0 ;; raise e
       end).

(** [time.sleep(n)] *)
Definition sleep (n : nat) : M unit := log (Sleep n).

(** [subprocess.run(..., timeout=t)]: the child's own deadline. *)
Definition subprocess_run (ev : Event) (timeout : nat) (r : proc_response)
  : M CompletedProcess :=
  fun w =>
    let w' := mkWorld (trace w ++ [ev]) (alarm w) (studio w) (results w) in
    if (p_duration r <? timeout)%nat then (p_finish r, w')
    else (Raised (TimeoutExpired "timed out"), w').

(** A local file operation ([open(...).write], [os.remove]). *)
Definition file_op (ev : Event) (r : outcome unit) : M unit :=
  fun w => (r, mkWorld (trace w ++ [ev]) (alarm w) (studio w) (results w)).

(** ** The script *)

Import PyStr.

Definition nl : string := String (ascii_of_nat 10) EmptyString.

(** Python truthiness of [os.environ.get(key)]. *)
Definition truthy (v : option string) : bool :=
  match v with
  | Some s => negb (is_empty s)
  | None => false
  end.

(** [a or b] on two optional strings. *)
Definition py_or (a b : option string) : option string :=
  if truthy a then a else b.

Definition getenv_default (v : option string) (default : string) : string :=
  match v with
  | Some s => s
  | None => default
  end.

(** *** [execute_via_cli] *)

Definition script_content (repo_url : string) (commands : list string) : string :=
  "#!/bin/bash" ++ nl ++
  "set -e" ++ nl ++
  "git clone " ++ repo_url ++ " /teamspace/studios/this_studio/repo" ++ nl ++
  "cd /teamspace/studios/this_studio/repo" ++ nl ++
  join nl commands ++ nl.

Definition script_path (env : Env) : string :=
  "/tmp/lightning_script_" ++ of_N (script_time env) ++ ".sh".

Definition execute_via_cli (env : Env) (repo_url project_name : string)
    (commands : list string) : M Report :=
  let results := mkReport false [] [] in
  try_except
    (cli_check <- subprocess_run CliVersion 10 (cli_version env) ;;
     if negb (returncode cli_check =? 0)%Z
     then ret (append_error "Lightning CLI not available" results)
     else
       file_op (WriteFile (script_path env) (script_content repo_url commands))
               (write_script env) ;;
       cli_result <- subprocess_run (CliRunScript (script_path env)) 600 (cli_run env) ;;
       file_op (RemoveFile (script_path env)) (remove_script env) ;;
       if (returncode cli_result =? 0)%Z
       then
         ret (append_output
                (mkResult "all_commands" (p_stdout cli_result) (p_stderr cli_result) 0 true)
                (set_success true results))
       else
         ret (append_output
                (mkResult "all_commands" (p_stdout cli_result) (p_stderr cli_result)
                          (returncode cli_result) false)
                (append_error ("CLI execution failed: " ++ p_stderr cli_result) results)))
    (fun e =>
       match e with
       | TimeoutExpired _ => ret (append_error "CLI execution timed out" results)
       | _ => ret (append_error ("CLI execution error: " ++ str e) results)
       end).

(** *** [execute_in_cloud] *)

(** Lines 176-178: the studio name. *)
Definition repo_name (repo_url : string) : string :=
  replace ".git" "" (split_last "/" (rstrip "/" repo_url)).

Definition studio_name (project_name repo_url : string) : string :=
  lower (replace " " "-" (slice_to 50 (project_name ++ "-" ++ repo_name repo_url))).

(** Lines 185-223: connect, else create in the teamspace, else create in
    the personal workspace.  Returns [(studio_created, last_error)]. *)
Definition acquire_studio (env : Env) (name teamspace user_param : string)
  : M (bool * string) :=
  a1 <- try_except
          (remote (StudioConnect name teamspace user_param) (connect env) ;;
           assign_studio ;;
           ret (true, "None"))
          (fun e1 => ret (false, str e1)) ;;
  if negb (fst a1)
  then
    try_except
      (remote (StudioCreate name teamspace user_param) (create env) ;;
       assign_studio ;;
       ret (true, snd a1))
      (fun e2 =>
         try_except
           (remote (StudioCreatePersonal name) (create_personal env) ;;
            assign_studio ;;
            ret (true, str e2))
           (fun e3 => ret (false, str e3)))
  else ret a1.

Definition acquisition_failure_report (last_error : string) : Report :=
  mkReport false []
    [ "Lightning Studio creation failed: " ++ last_error;
      "";
      "TROUBLESHOOTING:";
      "1. Verify your Lightning AI account: https://lightning.ai/";
      "2. Get your credentials from Settings > API Keys";
      "3. For teamspace, get name from your teamspace URL";
      "4. Try creating a Studio manually first to verify access";
      "";
      "Required env vars:";
      "  LIGHTNING_API_KEY=<your-api-key>";
      "  LIGHTNING_USERNAME=<your-username>";
      "  LIGHTNING_TEAMSPACE=<teamspace-name> (optional)" ].

(** Lines 246-269: start the studio; every outcome proceeds. *)
Definition start_studio (env : Env) : M unit :=
  try_except
    (run_with_timeout (remote StudioStart (start env)) 120 ;;
     sleep 3)
    (fun e =>
       match e with
       | TimeoutError _ => ret tt
       | _ => ret tt
       end).

(** Early [return] from inside the function body. *)
Inductive flow : Type :=
| Proceed
| Return (r : Report).

Definition probe_cmd : string := "echo 'Lightning Studio Ready' && pwd".

(** Lines 271-293: the responsiveness probe. *)
Definition test_studio (env : Env) : M flow :=
  try_except
    (run_with_timeout (remote (StudioRun probe_cmd) (probe env)) 30 ;;
     ret Proceed)
    (fun e =>
       match e with
       | TimeoutError _ =>
           ret (Return (mkReport false []
                  [ "Studio is not responsive (timeout)";
                    "Try again or check Lightning AI dashboard" ]))
       | _ =>
           ret (Return (mkReport false [] [ "Studio not responsive: " ++ str e ]))
       end).

Definition repo_dir (env : Env) : string :=
  "/teamspace/studios/this_studio/repo-" ++ of_N (clone_time env).

(** Lines 295-326: pre-clean and clone under one guard. *)
Definition clone_repo (env : Env) (repo_url : string) : M flow :=
  try_except
    (clone_output <-
       run_with_timeout
         (remote (StudioRun ("rm -rf " ++ repo_dir env)) (preclean env) ;;
          remote (StudioRun ("git clone " ++ repo_url ++ " " ++ repo_dir env)) (clone env))
         120 ;;
     modify_results
       (append_output
          (mkResult ("git clone " ++ repo_url) (slice_to 1000 clone_output) "" 0 true)) ;;
     ret Proceed)
    (fun e =>
       match e with
       | TimeoutError _ =>
           modify_results (set_success false) ;;
           modify_results (append_error "Git clone timed out (>120s)") ;;
           r <- get_results ;;
           ret (Return r)
       | _ =>
           modify_results (set_success false) ;;
           modify_results (append_error ("Git clone failed: " ++ str e)) ;;
           r <- get_results ;;
           ret (Return r)
       end).

(** Lines 332-339. *)
Definition install_class (cmd : string) : bool :=
  contains "install" (lower cmd) || contains "download" (lower cmd).

Definition timeout_seconds (cmd : string) : nat :=
  if install_class cmd then 600
  else if contains "test" (lower cmd) then 300
  else 180.

Definition full_cmd (env : Env) (cmd : string) : string :=
  "cd " ++ repo_dir env ++ " && timeout " ++ of_nat (timeout_seconds cmd) ++ " " ++ cmd.

(** Lines 341-392: one iteration of the loop; returns [true] on [break]. *)
Definition run_one (env : Env) (i : nat) (cmd : string) : M bool :=
  try_except
    (output <-
       run_with_timeout (remote (StudioRun (full_cmd env cmd)) (run_cmd env i cmd))
                        (timeout_seconds cmd + 30) ;;
     modify_results
       (append_output (mkResult cmd (slice_to 5000 output) "" 0 true)) ;;
     ret false)
    (fun e =>
       match e with
       | TimeoutError _ =>
           let error_msg :=
             "Command timed out after " ++ of_nat (timeout_seconds cmd) ++ "s" in
           modify_results (append_output (mkResult cmd "" error_msg 124 false)) ;;
           modify_results (append_error ("Command '" ++ cmd ++ "' " ++ error_msg)) ;;
           ret false
       | _ =>
           let error_msg := str e in
           modify_results
             (append_output (mkResult cmd "" (slice_to 2000 error_msg) 1 false)) ;;
           modify_results
             (append_error ("Command '" ++ cmd ++ "' failed: " ++ slice_to 500 error_msg)) ;;
           if install_class cmd
           then modify_results (set_success false) ;; ret true
           else ret false
       end).

(** Lines 329-392: [for i, cmd in enumerate(commands)], from index [i]. *)
Fixpoint run_commands (env : Env) (i : nat) (commands : list string) : M unit :=
  match commands with
  | [] => ret tt
  | cmd :: rest =>
      stop <- run_one env i cmd ;;
      if stop then ret tt else run_commands env (S i) rest
  end.

(** Lines 394-409: workspace removal, then studio stop; each swallows its
    own failure. *)
Definition teardown (env : Env) : M unit :=
  try_except (remote (StudioRun ("rm -rf " ++ repo_dir env)) (cleanup env) ;; ret tt)
             (fun _ => ret tt) ;;
  try_except (remote StudioStop (stop env) ;; ret tt)
             (fun _ => ret tt).

(** Lines 413-419. *)
Definition install_succeeded (r : Report) : bool :=
  existsb (fun o => cmd_success o && contains "install" (lower (command o)))
          (outputs r).

Definition promote (r : Report) : Report :=
  if (0 <? List.length (outputs r))%nat && negb (success r)
  then
    if install_succeeded r
    then append_error "Note: Some commands failed but installation succeeded"
                      (set_success true r)
    else r
  else r.

(** Lines 174-421: the body of the outer [try]. *)
Definition primary_path (env : Env) (repo_url project_name : string)
    (commands : list string) (teamspace user_param : string) : M Report :=
  a <- acquire_studio env (studio_name project_name repo_url) teamspace user_param ;;
  if negb (fst a)
  then ret (acquisition_failure_report (snd a))
  else
    start_studio env ;;
    p <- test_studio env ;;
    match p with
    | Return r => ret r
    | Proceed =>
        c <- clone_repo env repo_url ;;
        match c with
        | Return r => ret r
        | Proceed =>
            run_commands env 0 commands ;;
            teardown env ;;
            modify_results promote ;;
            get_results
        end
    end.

Definition use_cli_fallback (env : Env) : bool :=
  String.eqb (lower (getenv_default (LIGHTNING_USE_CLI_FALLBACK env) "true")) "true".

(** Lines 423-449: the outer [except Exception as e]. *)
Definition sdk_failure_handler (env : Env) (repo_url project_name : string)
    (commands : list string) (e : exn) : M Report :=
  modify_results (set_success false) ;;
  modify_results (append_error ("Lightning SDK execution failed: " ++ str e)) ;;
  has_studio <- get_studio ;;
  (if has_studio
   then try_except (remote StudioStop (stop_after_failure env) ;; ret tt)
                   (fun _ => ret tt)
   else ret tt) ;;
  if use_cli_fallback env
  then
    cli_results <- execute_via_cli env repo_url project_name commands ;;
    if success cli_results
    then ret cli_results
    else
      modify_results (extend_errors (errors cli_results)) ;;
      get_results
  else get_results.

Definition execute_in_cloud (env : Env) (repo_url project_name : string)
    (commands : list string) : M Report :=
  if negb (truthy (LIGHTNING_API_KEY env))
  then ret (mkReport false [] [ "LIGHTNING_API_KEY not set in environment" ])
  else
    match py_or (LIGHTNING_USERNAME env) (LIGHTNING_USER_ID env) with
    | Some user_param =>
        if is_empty user_param
        then ret (mkReport false []
                    [ "LIGHTNING_USERNAME or LIGHTNING_USER_ID must be set in environment";
                      "The SDK needs a user parameter when creating Studios";
                      "Get your username from: https://lightning.ai/ (check your profile URL)" ])
        else
          try_except
            (primary_path env repo_url project_name commands
               (getenv_default (LIGHTNING_TEAMSPACE env) "Vision-model") user_param)
            (sdk_failure_handler env repo_url project_name commands)
    | None =>
        ret (mkReport false []
               [ "LIGHTNING_USERNAME or LIGHTNING_USER_ID must be set in environment";
                 "The SDK needs a user parameter when creating Studios";
                 "Get your username from: https://lightning.ai/ (check your profile URL)" ])
    end.

(** One complete run from a fresh process. *)
Definition run (env : Env) (repo_url project_name : string)
    (commands : list string) : outcome Report * World :=
  execute_in_cloud env repo_url project_name commands initial_world.

(** ** Specification-level characterisations

    Plain functions of the environment that say what each stage is
    expected to produce; the theorems below relate the script to them. *)

(** What a single remote call yields under [run_with_timeout ... b]. *)
Definition guarded (r : response) (b : nat) : outcome string :=
  if (b =? 0)%nat then finish r
  else if (duration r <? b)%nat then finish r
  else Raised (TimeoutError "Operation timed out").

(** The calls one guarded remote call leaves in the trace. *)
Definition guard_events (b : nat) (ev : Event) : list Event :=
  [SignalHandler; SignalAlarm b; ev; SignalAlarm 0].

(** The classifier as the design document words it. *)
Inductive command_class : Type :=
| InstallClass
| TestClass
| OtherClass.

Definition classify (cmd : string) : command_class :=
  if contains "install" (lower cmd) then InstallClass
  else if contains "download" (lower cmd) then InstallClass
  else if contains "test" (lower cmd) then TestClass
  else OtherClass.

Definition budget (c : command_class) : nat :=
  match c with
  | InstallClass => 600
  | TestClass => 300
  | OtherClass => 180
  end.

(** The calls one loop iteration leaves in the trace. *)
Definition step_events (env : Env) (cmd : string) : list Event :=
  guard_events (timeout_seconds cmd + 30) (StudioRun (full_cmd env cmd)).

(** The guarded outcome of the [i]-th command. *)
Definition command_outcome (env : Env) (i : nat) (cmd : string) : outcome string :=
  guarded (run_cmd env i cmd) (timeout_seconds cmd + 30).

Definition is_timeout (e : exn) : bool :=
  match e with
  | TimeoutError _ => true
  | _ => false
  end.

(** The command failed, and not by running into the guard. *)
Definition hard_failure (env : Env) (i : nat) (cmd : string) : bool :=
  match command_outcome env i cmd with
  | Returned _ => false
  | Raised e => negb (is_timeout e)
  end.

(** The command failed in any way (its CommandResult has success = false). *)
Definition failed (env : Env) (i : nat) (cmd : string) : bool :=
  match command_outcome env i cmd with
  | Returned _ => false
  | Raised _ => true
  end.

Definition stops (env : Env) (i : nat) (cmd : string) : bool :=
  install_class cmd && hard_failure env i cmd.

(** The CommandResult and error string one iteration records. *)
Definition record_step (env : Env) (i : nat) (cmd : string) (r : Report) : Report :=
  match command_outcome env i cmd with
  | Returned output =>
      append_output (mkResult cmd (slice_to 5000 output) "" 0 true) r
  | Raised (TimeoutError _) =>
      let error_msg := "Command timed out after " ++ of_nat (timeout_seconds cmd) ++ "s" in
      append_error ("Command '" ++ cmd ++ "' " ++ error_msg)
        (append_output (mkResult cmd "" error_msg 124 false) r)
  | Raised e =>
      let r' :=
        append_error ("Command '" ++ cmd ++ "' failed: " ++ slice_to 500 (str e))
          (append_output (mkResult cmd "" (slice_to 2000 (str e)) 1 false) r) in
      if install_class cmd then set_success false r' else r'
  end.

(** The commands the loop gets to, starting at index [i]. *)
Fixpoint attempted (env : Env) (i : nat) (commands : list string) : list string :=
  match commands with
  | [] => []
  | cmd :: rest =>
      cmd :: (if stops env i cmd then [] else attempted env (S i) rest)
  end.

Fixpoint record_all (env : Env) (i : nat) (commands : list string) (r : Report) : Report :=
  match commands with
  | [] => r
  | cmd :: rest =>
      let r' := record_step env i cmd r in
      if stops env i cmd then r' else record_all env (S i) rest r'
  end.

Definition is_returned {A} (o : outcome A) : bool :=
  match o with
  | Returned _ => true
  | Raised _ => false
  end.

(** Acquisition: [(studio_created, last_error)] and the constructor calls. *)
Definition acquire_result (env : Env) : bool * string :=
  match finish (connect env) with
  | Returned _ => (true, "None")
  | Raised e1 =>
      match finish (create env) with
      | Returned _ => (true, str e1)
      | Raised e2 =>
          match finish (create_personal env) with
          | Returned _ => (true, str e2)
          | Raised e3 => (false, str e3)
          end
      end
  end.

Definition acquire_events (env : Env) (name teamspace user : string) : list Event :=
  StudioConnect name teamspace user ::
  match finish (connect env) with
  | Returned _ => []
  | Raised _ =>
      StudioCreate name teamspace user ::
      match finish (create env) with
      | Returned _ => []
      | Raised _ => [StudioCreatePersonal name]
      end
  end.

Definition start_events (env : Env) : list Event :=
  guard_events 120 StudioStart ++
  (if is_returned (guarded (start env) 120) then [Sleep 3] else []).

Definition probe_events : list Event := guard_events 30 (StudioRun probe_cmd).

(** The clone stage: two remote calls share one 120-second guard, and
    the second is issued only when the first came back in time. *)
Definition preclean_returns (env : Env) : bool :=
  (duration (preclean env) <? 120)%nat && is_returned (finish (preclean env)).

Definition clone_outcome (env : Env) : outcome string :=
  if (duration (preclean env) <? 120)%nat
  then
    match finish (preclean env) with
    | Returned _ =>
        if (duration (clone env) <? 120 - duration (preclean env))%nat
        then finish (clone env)
        else Raised (TimeoutError "Operation timed out")
    | Raised e => Raised e
    end
  else Raised (TimeoutError "Operation timed out").

Definition clone_events (env : Env) (repo_url : string) : list Event :=
  [SignalHandler; SignalAlarm 120; StudioRun ("rm -rf " ++ repo_dir env)] ++
  (if preclean_returns env
   then [StudioRun ("git clone " ++ repo_url ++ " " ++ repo_dir env)]
   else []) ++
  [SignalAlarm 0].

Definition clone_result (repo_url clone_output : string) : CommandResult :=
  mkResult ("git clone " ++ repo_url) (slice_to 1000 clone_output) "" 0 true.

Definition clone_failure_report (e : exn) : Report :=
  match e with
  | TimeoutError _ => mkReport false [] ["Git clone timed out (>120s)"]
  | _ => mkReport false [] ["Git clone failed: " ++ str e]
  end.

Definition probe_failure_report (e : exn) : Report :=
  match e with
  | TimeoutError _ =>
      mkReport false []
        [ "Studio is not responsive (timeout)";
          "Try again or check Lightning AI dashboard" ]
  | _ => mkReport false [] [ "Studio not responsive: " ++ str e ]
  end.

Definition teardown_events (env : Env) : list Event :=
  [StudioRun ("rm -rf " ++ repo_dir env); StudioStop].

(** Credentials as [execute_in_cloud] accepts them. *)
Definition user_param (env : Env) : string :=
  getenv_default (py_or (LIGHTNING_USERNAME env) (LIGHTNING_USER_ID env)) "".

Definition credentials_ok (env : Env) : bool :=
  truthy (LIGHTNING_API_KEY env) &&
  truthy (py_or (LIGHTNING_USERNAME env) (LIGHTNING_USER_ID env)).

Definition teamspace (env : Env) : string :=
  getenv_default (LIGHTNING_TEAMSPACE env) "Vision-model".

Definition is_cli_event (ev : Event) : bool :=
  match ev with
  | CliVersion | WriteFile _ _ | CliRunScript _ | RemoveFile _ => true
  | _ => false
  end.

(** [c * n] for a one-character string. *)
Fixpoint repeat_char (c : ascii) (n : nat) : string :=
  match n with
  | O => EmptyString
  | S k => String c (repeat_char c k)
  end.

(** The report and the trace of a whole run with usable credentials. *)
Definition run_spec (env : Env) (repo_url project_name : string)
    (commands : list string) : Report * list Event :=
  let acq :=
    acquire_events env (studio_name project_name repo_url) (teamspace env)
                   (user_param env) in
  if negb (fst (acquire_result env))
  then (acquisition_failure_report (snd (acquire_result env)), acq)
  else
    match guarded (probe env) 30 with
    | Raised e =>
        (probe_failure_report e, (acq ++ start_events env ++ probe_events)%list)
    | Returned _ =>
        match clone_outcome env with
        | Raised e =>
            (clone_failure_report e,
             (acq ++ start_events env ++ probe_events ++ clone_events env repo_url)%list)
        | Returned clone_output =>
            (promote
               (record_all env 0 commands
                  (append_output (clone_result repo_url clone_output) initial_results)),
             (acq ++ start_events env ++ probe_events ++ clone_events env repo_url ++
              flat_map (step_events env) (attempted env 0 commands) ++
              teardown_events env)%list)
        end
    end.



(** ** Sample environments

    A run is fixed by its environment; these are the concrete ones the
    examples below evaluate. *)

Definition answer (d : nat) (s : string) : response := mkResponse d (Returned s).

Definition failure (d : nat) (msg : string) : response :=
  mkResponse d (Raised (OtherError msg)).

Definition cli_ok (out : string) : proc_response :=
  mkProcResponse 1 (Returned (mkProc 0 out "")).

(** Everything answers promptly except what the arguments say. *)
Definition sample_env (connect_r create_r personal_r probe_r : response)
    (cmd_r : nat -> string -> response) (cli : proc_response) : Env :=
  mkEnv (Some "key") None (Some "alice") None None 1700000000%N 1700000001%N
        connect_r create_r personal_r
        (answer 2 "") probe_r (answer 1 "") (answer 3 "Cloning into repo...")
        cmd_r
        (answer 1 "") (answer 1 "") (answer 1 "")
        (cli_ok "lightning 2.0") (Returned tt) cli (Returned tt).

Definition prompt (i : nat) (cmd : string) : response := answer 1 "ok".


(** The probe raises an error that is not a timeout. *)
Definition env_probe_error : Env :=
  sample_env (answer 1 "") (answer 1 "") (answer 1 "")
             (failure 1 "connection reset") prompt (cli_ok "done").

(** The probe hangs past its 30-second guard. *)
Definition env_probe_hangs : Env :=
  sample_env (answer 1 "") (answer 1 "") (answer 1 "")
             (answer 45 "ready") prompt (cli_ok "done").

(** The first command succeeds, every later one raises. *)
Definition env_test_fails : Env :=
  sample_env (answer 1 "") (answer 1 "") (answer 1 "") (answer 1 "ready")
             (fun i _ => if (i =? 0)%nat then answer 5 "installed"
                         else failure 7 "2 tests failed")
             (cli_ok "").

(** The first command runs into its guard (700 s against 630 s). *)
Definition env_install_hangs : Env :=
  sample_env (answer 1 "") (answer 1 "") (answer 1 "") (answer 1 "ready")
             (fun i _ => if (i =? 0)%nat then answer 700 "" else answer 1 "ok")
             (cli_ok "").

(** The first command raises, every later one would succeed. *)
Definition env_install_fails : Env :=
  sample_env (answer 1 "") (answer 1 "") (answer 1 "") (answer 1 "ready")
             (fun i _ => if (i =? 0)%nat then failure 3 "no matching distribution"
                         else answer 1 "ok")
             (cli_ok "").

(** The first command (a download) succeeds, the install after it raises. *)
Definition env_download_ok_install_fails : Env :=
  sample_env (answer 1 "") (answer 1 "") (answer 1 "") (answer 1 "ready")
             (fun i _ => if (i =? 0)%nat then answer 4 "saved"
                         else failure 3 "no matching distribution")
             (cli_ok "").

(** The command-line tool prints 6000 characters. *)
Definition env_big_output : Env :=
  sample_env (answer 1 "") (answer 1 "") (answer 1 "") (answer 1 "ready")
             prompt (cli_ok (repeat_char "x" (60 * 100))).

Definition sample_url : string := "https://github.com/u/repo.git".
Definition install_then_test : list string := ["pip install x"; "pytest"].

Definition download_then_install : list string :=
  ["curl -O download.tgz"; "pip install x"].

Definition promotion_note : string :=
  "Note: Some commands failed but installation succeeded".

(** The state in which an error escaped after the clone was recorded. *)
Definition world_after_clone : World :=
  mkWorld [StudioConnect "demo-repo" "Vision-model" "alice"] None true
          (mkReport true [clone_result sample_url "Cloning into repo..."] []).


(** ** The entry point *)

Definition usage_report : Report :=
  mkReport false []
    [ "Usage: lightning_executor.py <repo_url> <project_name> <command1> [command2] ..." ].

(** [main()], lines 452-472.  [argv] is [sys.argv], the script name
    first.  The value returned is the report written to stdout (its JSON
    rendering is left abstract) with the status passed to [sys.exit]. *)
Definition main (env : Env) (argv : list string) : M (Report * Z) :=
  if (List.length argv <? 4)%nat
  then ret (usage_report, 1%Z)
  else
    let repo_url := nth 1 argv "" in
    let project_name := nth 2 argv "" in
    let commands := skipn 3 argv in
    results <- execute_in_cloud env repo_url project_name commands ;;
    ret (results, if success results then 0%Z else 1%Z).

(** ** Further characterisations *)

Definition missing_key_report : Report :=
  mkReport false [] [ "LIGHTNING_API_KEY not set in environment" ].

Definition missing_user_report : Report :=
  mkReport false []
    [ "LIGHTNING_USERNAME or LIGHTNING_USER_ID must be set in environment";
      "The SDK needs a user parameter when creating Studios";
      "Get your username from: https://lightning.ai/ (check your profile URL)" ].

(** The report of a whole run, credentials included. *)
Definition final_report (env : Env) (repo_url project_name : string)
    (commands : list string) : Report :=
  if negb (truthy (LIGHTNING_API_KEY env)) then missing_key_report
  else if negb (truthy (py_or (LIGHTNING_USERNAME env) (LIGHTNING_USER_ID env)))
  then missing_user_report
  else fst (run_spec env repo_url project_name commands).

(** The same environment with other answers at some call sites. *)
Definition with_teardown (env : Env) (cleanup_r stop_r : response) : Env :=
  mkEnv (LIGHTNING_API_KEY env) (LIGHTNING_USER_ID env) (LIGHTNING_USERNAME env)
        (LIGHTNING_TEAMSPACE env) (LIGHTNING_USE_CLI_FALLBACK env)
        (clone_time env) (script_time env)
        (connect env) (create env) (create_personal env) (start env) (probe env)
        (preclean env) (clone env) (run_cmd env) cleanup_r stop_r
        (stop_after_failure env) (cli_version env) (write_script env) (cli_run env)
        (remove_script env).

Definition with_start (env : Env) (start_r : response) : Env :=
  mkEnv (LIGHTNING_API_KEY env) (LIGHTNING_USER_ID env) (LIGHTNING_USERNAME env)
        (LIGHTNING_TEAMSPACE env) (LIGHTNING_USE_CLI_FALLBACK env)
        (clone_time env) (script_time env)
        (connect env) (create env) (create_personal env) start_r (probe env)
        (preclean env) (clone env) (run_cmd env) (cleanup env) (stop env)
        (stop_after_failure env) (cli_version env) (write_script env) (cli_run env)
        (remove_script env).

Definition with_clone (env : Env) (preclean_r clone_r : response) : Env :=
  mkEnv (LIGHTNING_API_KEY env) (LIGHTNING_USER_ID env) (LIGHTNING_USERNAME env)
        (LIGHTNING_TEAMSPACE env) (LIGHTNING_USE_CLI_FALLBACK env)
        (clone_time env) (script_time env)
        (connect env) (create env) (create_personal env) (start env) (probe env)
        preclean_r clone_r (run_cmd env) (cleanup env) (stop env)
        (stop_after_failure env) (cli_version env) (write_script env) (cli_run env)
        (remove_script env).

Definition with_cli (env : Env) (version_r : proc_response) (write_r : outcome unit)
    (run_r : proc_response) (remove_r : outcome unit) : Env :=
  mkEnv (LIGHTNING_API_KEY env) (LIGHTNING_USER_ID env) (LIGHTNING_USERNAME env)
        (LIGHTNING_TEAMSPACE env) (LIGHTNING_USE_CLI_FALLBACK env)
        (clone_time env) (script_time env)
        (connect env) (create env) (create_personal env) (start env) (probe env)
        (preclean env) (clone env) (run_cmd env) (cleanup env) (stop env)
        (stop_after_failure env) version_r write_r run_r remove_r.

Definition with_environ (env : Env) (key user_id username ts fallback : option string)
  : Env :=
  mkEnv key user_id username ts fallback
        (clone_time env) (script_time env)
        (connect env) (create env) (create_personal env) (start env) (probe env)
        (preclean env) (clone env) (run_cmd env) (cleanup env) (stop env)
        (stop_after_failure env) (cli_version env) (write_script env) (cli_run env)
        (remove_script env).

Definition is_stop (ev : Event) : bool :=
  match ev with
  | StudioStop => true
  | _ => false
  end.

Definition is_remove (ev : Event) : bool :=
  match ev with
  | RemoveFile _ => true
  | _ => false
  end.

Definition timeout_exn : exn := TimeoutError "Operation timed out".

(** The calls of the fallback up to and including the script run. *)
Definition cli_events_to_run (env : Env) (repo_url : string) (commands : list string)
  : list Event :=
  [ CliVersion;
    WriteFile (script_path env) (script_content repo_url commands);
    CliRunScript (script_path env) ].

(** Every answer prompt and successful. *)
Definition env_all_ok : Env :=
  sample_env (answer 1 "") (answer 1 "") (answer 1 "") (answer 1 "ready")
             prompt (cli_ok "done").

(** The clone is refused by the remote side. *)
Definition env_clone_fails : Env :=
  with_clone env_all_ok (answer 1 "") (failure 2 "repository not found").

(** Pre-clean and clone take 70 seconds each. *)
Definition env_clone_slow : Env :=
  with_clone env_all_ok (answer 70 "") (answer 70 "Cloning into repo...").

(** Every command raises. *)
Definition env_all_commands_fail : Env :=
  sample_env (answer 1 "") (answer 1 "") (answer 1 "") (answer 1 "ready")
             (fun _ _ => failure 2 "exit status 1") (cli_ok "done").

(** The command-line tool is installed but answers with status 1. *)
Definition env_cli_unavailable : Env :=
  with_cli env_all_ok (mkProcResponse 1 (Returned (mkProc 1 "" "unknown command")))
           (Returned tt) (cli_ok "done") (Returned tt).

(** The script run outlives its 600-second deadline. *)
Definition env_cli_hangs : Env :=
  with_cli env_all_ok (cli_ok "lightning 2.0") (Returned tt)
           (mkProcResponse 900 (Returned (mkProc 0 "late" ""))) (Returned tt).

(** The script run exits with status 2. *)
Definition env_cli_exit_2 : Env :=
  with_cli env_all_ok (cli_ok "lightning 2.0") (Returned tt)
           (mkProcResponse 5 (Returned (mkProc 2 "partial" "pytest: 1 failed")))
           (Returned tt).

(** The fallback is switched off. *)
Definition env_no_fallback : Env :=
  with_environ env_all_ok (Some "key") None (Some "alice") None (Some "false").

(** No API key. *)
Definition env_no_key : Env :=
  with_environ env_all_ok None None (Some "alice") None None.

(** What every CommandResult of the primary path looks like. *)
Definition well_formed_result (o : CommandResult) : Prop :=
  (cmd_success o = true <-> exitCode o = 0%Z) /\
  (exitCode o = 0 \/ exitCode o = 1 \/ exitCode o = 124)%Z /\
  (cmd_success o = true -> stderr o = "") /\
  (cmd_success o = false -> stdout o = "") /\
  String.length (stdout o) <= 5000 /\
  String.length (stderr o) <= 2000.

Definition installer_url : string := "https://github.com/u/installer".

(** [lightning --version] came back within 10 seconds with status 0. *)
Definition version_ok (env : Env) : bool :=
  (p_duration (cli_version env) <? 10)%nat &&
  match p_finish (cli_version env) with
  | Returned v => (returncode v =? 0)%Z
  | Raised _ => false
  end.

(** The script run came back, with any status, within 600 seconds. *)
Definition script_run_returns (env : Env) : bool :=
  (p_duration (cli_run env) <? 600)%nat && is_returned (p_finish (cli_run env)).

Definition sdk_failure_message (e : exn) : string :=
  "Lightning SDK execution failed: " ++ str e.

Definition long_project_name : string := repeat_char "p" 50.

(** The CommandResults of a report that failed. *)
Definition failed_results (r : Report) : list CommandResult :=
  filter (fun o => negb (cmd_success o)) (outputs r).

(** The user id is set, the user name is empty. *)
Definition env_user_id_only : Env :=
  with_environ env_all_ok (Some "key") (Some "u-42") (Some "") (Some "research") None.

(** ** The studio name on Unicode text

    A Python [str] is a sequence of Unicode code points, and [str.lower]
    consults the case tables of the Python runtime: for the character at
    each index it appends the code points that character lowers to, one
    for most characters, more for a few.  Those tables are not part of
    this repository; they are the parameter [lower_ucs4] below.  Lines
    176-178 are embedded again on such text, so that the length of the
    studio name counts characters as Python counts them. *)

Module Unicode.

Definition text : Type := list N.

(** The code points of an ASCII literal. *)
Definition of_ascii (s : string) : text :=
  map N_of_ascii (list_ascii_of_string s).

(** [s.startswith(old)] at the head of [s]. *)
Fixpoint starts_with (old s : text) : bool :=
  match old, s with
  | [], _ => true
  | _ :: _, [] => false
  | a :: old', b :: s' => N.eqb a b && starts_with old' s'
  end.

(** [s.replace(old, new)] for a non-empty [old]. *)
Fixpoint replace_from (old new : text) (skip : nat) (s : text) : text :=
  match s with
  | [] => []
  | c :: s' =>
      match skip with
      | S k => replace_from old new k s'
      | O =>
          if starts_with old s
          then (new ++ replace_from old new (List.length old - 1) s')%list
          else c :: replace_from old new 0 s'
      end
  end.

Definition replace (old new s : text) : text := replace_from old new 0 s.

(** [s.rstrip(c)] for a one-character argument. *)
Fixpoint rstrip (c : N) (s : text) : text :=
  match s with
  | [] => []
  | a :: s' =>
      match rstrip c s' with
      | [] => if N.eqb a c then [] else [a]
      | r => a :: r
      end
  end.

(** [s.split(sep)[-1]] *)
Fixpoint split_last_from (sep : N) (cur s : text) : text :=
  match s with
  | [] => cur
  | a :: s' =>
      if N.eqb a sep then split_last_from sep [] s'
      else split_last_from sep (cur ++ [a])%list s'
  end.

Definition split_last (sep : N) (s : text) : text := split_last_from sep [] s.

(** [s[:n]] *)
Definition slice_to (n : nat) (s : text) : text := firstn n s.

(** The case tables: [lower_ucs4 s i c] are the code points that the
    character [c], found at index [i] of [s], lowers to. *)
Definition case_table : Type := text -> nat -> N -> text.

(** [s.lower()]: the characters of [s] from index [i] on, lowered in turn. *)
Fixpoint lower_from (lower_ucs4 : case_table) (s : text) (i : nat) (rest : text)
  : text :=
  match rest with
  | [] => []
  | c :: rest' =>
      (lower_ucs4 s i c ++ lower_from lower_ucs4 s (S i) rest')%list
  end.

Definition lower (lower_ucs4 : case_table) (s : text) : text :=
  lower_from lower_ucs4 s 0 s.

Definition space : N := 32.
Definition hyphen : N := 45.
Definition slash : N := 47.

(** Line 176. *)
Definition repo_name (repo_url : text) : text :=
  replace (of_ascii ".git") [] (split_last slash (rstrip slash repo_url)).

(** Line 177: [f"{project_name}-{repo_name}"[:50]]. *)
Definition cut_name (project_name repo_url : text) : text :=
  slice_to 50 (project_name ++ [hyphen] ++ repo_name repo_url)%list.

(** Line 178: [studio_name.replace(' ', '-').lower()]. *)
Definition studio_name (lower_ucs4 : case_table) (project_name repo_url : text)
  : text :=
  lower lower_ucs4 (replace [space] [hyphen] (cut_name project_name repo_url)).

(** U+0130, LATIN CAPITAL LETTER I WITH DOT ABOVE; Python lowers it to
    the two code points U+0069 U+0307. *)
Definition capital_dotted_I : N := 304.
Definition small_i_dot_above : text := [105; 775]%N.

(** A project name of fifty such letters. *)
Definition dotted_name : text := repeat capital_dotted_I 50.

(** A case table with the entries the examples use: the ASCII capitals
    and U+0130; every other character is left as it is. *)
Definition sample_table : case_table :=
  fun _ _ c =>
    if ((65 <=? c) && (c <=? 90))%N then [(c + 32)%N]
    else if (c =? capital_dotted_I)%N then small_i_dot_above
    else [c].

End Unicode.

(** Unfolds the monad and the primitive effects. *)
Ltac unfold_monad :=
  unfold run_with_timeout, signal_signal, signal_alarm, log, sleep, remote,
    try_except, bind, ret, raise, modify_results, get_results, assign_studio,
    get_studio, subprocess_run, file_op in *.

(** Unfolds the fallback down to its primitive effects. *)
Ltac unfold_cli :=
  unfold execute_via_cli; unfold_monad;
  cbn -[Nat.ltb Z.eqb String.append script_content script_path].

(** * Properties *)

(** ** Strings *)

Lemma prefix_empty (s : string) : prefix "" s = true.
Proof. destruct s; reflexivity. Qed.

Lemma lower_char_not_upper (c : ascii) : is_upper (lower_char c) = false.
Proof. destruct c as [[] [] [] [] [] [] [] []]; reflexivity. Qed.

Lemma lower_char_idem (c : ascii) : lower_char (lower_char c) = lower_char c.
Proof. destruct c as [[] [] [] [] [] [] [] []]; reflexivity. Qed.

Lemma lower_char_space (c : ascii) :
  Ascii.eqb (lower_char c) " " = Ascii.eqb c " ".
Proof. destruct c as [[] [] [] [] [] [] [] []]; reflexivity. Qed.

Lemma length_lower (s : string) : String.length (lower s) = String.length s.
Proof. induction s as [|c s IH]; simpl; congruence. Qed.

Lemma lower_idem (s : string) : lower (lower s) = lower s.
Proof.
  induction s as [|c s IH]; simpl; [reflexivity|].
  now rewrite lower_char_idem, IH.
Qed.

Lemma no_upper_lower (s : string) : no_upper (lower s) = true.
Proof.
  induction s as [|c s IH]; simpl; [reflexivity|].
  now rewrite lower_char_not_upper, IH.
Qed.

Lemma length_slice_to (n : nat) (s : string) : String.length (slice_to n s) <= n.
Proof.
  revert s; induction n as [|n IH]; intros [|c s]; simpl; try lia.
  specialize (IH s); lia.
Qed.

Lemma slice_to_short (n : nat) (s : string) :
  String.length s <= n -> slice_to n s = s.
Proof.
  revert s; induction n as [|n IH]; intros [|c s]; simpl; intros H;
    try reflexivity; try lia.
  f_equal; apply IH; lia.
Qed.

Lemma length_repeat_char (c : ascii) (n : nat) : String.length (repeat_char c n) = n.
Proof. induction n as [|n IH]; simpl; congruence. Qed.

Lemma prefix_one (a c : ascii) (s : string) :
  prefix (String a "") (String c s) = Ascii.eqb a c.
Proof.
  simpl. destruct (ascii_dec a c) as [->|Hne].
  - now rewrite prefix_empty, Ascii.eqb_refl.
  - symmetry; now apply Ascii.eqb_neq.
Qed.

(** Replacing one character by another works position by position. *)
Lemma replace_space_cons (c : ascii) (s : string) :
  replace " " "-" (String c s) =
  String (if Ascii.eqb " " c then "-"%char else c) (replace " " "-" s).
Proof.
  unfold replace. cbn [replace_from].
  rewrite prefix_one. destruct (Ascii.eqb " " c); reflexivity.
Qed.

Lemma length_replace_space (s : string) :
  String.length (replace " " "-" s) = String.length s.
Proof.
  induction s as [|c s IH]; [reflexivity|].
  rewrite replace_space_cons. simpl. now rewrite IH.
Qed.

Lemma no_space_after_normalising (s : string) :
  contains " " (lower (replace " " "-" s)) = false.
Proof.
  induction s as [|c s IH]; [reflexivity|].
  rewrite replace_space_cons. cbn [lower contains].
  rewrite prefix_one, IH, orb_false_r.
  rewrite Ascii.eqb_sym, lower_char_space.
  destruct (Ascii.eqb " " c) eqn:E; [reflexivity|].
  now rewrite Ascii.eqb_sym.
Qed.

(** On 8-bit text, where lower-casing is the ASCII mapping and keeps the
    length: the studio name, built by concatenating, cutting to 50
    characters and then normalising, has at most 50 characters, is
    lowercase (lowering it again changes nothing and it holds no
    upper-case letter) and holds no space.  Python agrees with this on
    ASCII names; for Unicode names see [Unicode.studio_name] below. *)
Theorem studio_name_token (project_name repo_url : string) :
  String.length (studio_name project_name repo_url) <= 50 /\
  lower (studio_name project_name repo_url) = studio_name project_name repo_url /\
  no_upper (studio_name project_name repo_url) = true /\
  has_space (studio_name project_name repo_url) = false.
Proof.
  unfold studio_name, has_space. repeat split.
  - rewrite length_lower, length_replace_space. apply length_slice_to.
  - apply lower_idem.
  - apply no_upper_lower.
  - apply no_space_after_normalising.
Qed.

(** ** The timeout guard *)

(** Whatever the wrapped computation does, the guard leaves no alarm
    pending, and it passes the computation's own outcome through. *)
Lemma run_with_timeout_releases {A} (func : M A) (b : nat) (w : World) :
  alarm (snd (run_with_timeout func b w)) = None.
Proof.
  unfold_monad. cbn.
  destruct (func _) as [[a|[m|m|m]] w']; reflexivity.
Qed.

Lemma run_with_timeout_remote (ev : Event) (r : response) (b : nat) (w : World) :
  run_with_timeout (remote ev r) b w =
  (guarded r b,
   mkWorld (trace w ++ guard_events b ev) None (studio w) (results w)).
Proof.
  unfold_monad. unfold guarded, guard_events. cbn -[Nat.ltb Nat.eqb].
  destruct (b =? 0)%nat; cbn -[Nat.ltb].
  - destruct (finish r) as [a|[m|m|m]]; cbn; repeat rewrite <- app_assoc; reflexivity.
  - destruct (duration r <? b)%nat; cbn; [destruct (finish r) as [a|[m|m|m]]; cbn|];
      repeat rewrite <- app_assoc; reflexivity.
Qed.




(** ** The stages of [execute_in_cloud] *)

Lemma bind_returned {A B} (m : M A) (k : A -> M B) (w w' : World) (a : A) :
  m w = (Returned a, w') -> bind m k w = k a w'.
Proof. unfold bind. now intros ->. Qed.

Lemma world_eta (w : World) :
  alarm w = None -> w = mkWorld (trace w ++ []) None (studio w) (results w).
Proof. destruct w; cbn. intros ->. now rewrite app_nil_r. Qed.

Lemma run_one_eq (env : Env) (i : nat) (cmd : string) (w : World) :
  run_one env i cmd w =
  (Returned (stops env i cmd),
   mkWorld (trace w ++ step_events env cmd) None (studio w)
           (record_step env i cmd (results w))).
Proof.
  unfold run_one, try_except, bind. rewrite run_with_timeout_remote.
  unfold stops, hard_failure, record_step, command_outcome, step_events.
  destruct (guarded _ _) as [out|[m|m|m]]; cbn [is_timeout negb];
    rewrite ?andb_false_r, ?andb_true_r; try reflexivity;
    destruct (install_class cmd); reflexivity.
Qed.

Lemma run_commands_eq (env : Env) (commands : list string) :
  forall (i : nat) (w : World),
    alarm w = None ->
    run_commands env i commands w =
    (Returned tt,
     mkWorld (trace w ++ flat_map (step_events env) (attempted env i commands))
             None (studio w) (record_all env i commands (results w))).
Proof.
  induction commands as [|cmd rest IH]; intros i w Hw.
  - unfold run_commands, ret. cbn. f_equal. now apply world_eta.
  - cbn [run_commands attempted record_all flat_map].
    erewrite bind_returned by apply run_one_eq.
    destruct (stops env i cmd).
    + unfold ret. now rewrite app_nil_r.
    + rewrite IH by reflexivity. cbn [trace studio results].
      now rewrite <- app_assoc.
Qed.

Lemma acquire_studio_eq (env : Env) (name ts user : string) (w : World) :
  alarm w = None ->
  acquire_studio env name ts user w =
  (Returned (acquire_result env),
   mkWorld (trace w ++ acquire_events env name ts user) None
           (studio w || fst (acquire_result env)) (results w)).
Proof.
  intros Hw. unfold acquire_studio, acquire_result, acquire_events.
  unfold_monad. rewrite Hw. cbn.
  destruct (finish (connect env)) as [v1|e1]; cbn.
  - now rewrite orb_true_r.
  - destruct (finish (create env)) as [v2|e2]; cbn.
    + now rewrite orb_true_r, <- app_assoc.
    + destruct (finish (create_personal env)) as [v3|e3]; cbn;
        rewrite ?orb_true_r, ?orb_false_r, <- !app_assoc; reflexivity.
Qed.

Lemma start_studio_eq (env : Env) (w : World) :
  start_studio env w =
  (Returned tt,
   mkWorld (trace w ++ start_events env) None (studio w) (results w)).
Proof.
  unfold start_studio, try_except, bind, start_events.
  rewrite run_with_timeout_remote.
  destruct (guarded (start env) 120) as [v|[m|m|m]]; cbn [is_returned];
    unfold sleep, log, ret; cbn [trace alarm studio results];
    rewrite ?app_nil_r, <- ?app_assoc; reflexivity.
Qed.

Lemma test_studio_eq (env : Env) (w : World) :
  test_studio env w =
  (Returned match guarded (probe env) 30 with
            | Returned _ => Proceed
            | Raised e => Return (probe_failure_report e)
            end,
   mkWorld (trace w ++ probe_events) None (studio w) (results w)).
Proof.
  unfold test_studio, try_except, bind, probe_events.
  rewrite run_with_timeout_remote.
  destruct (guarded (probe env) 30) as [v|[m|m|m]]; reflexivity.
Qed.

Lemma clone_repo_eq (env : Env) (repo_url : string) (w : World) :
  results w = initial_results ->
  clone_repo env repo_url w =
  (Returned match clone_outcome env with
            | Returned _ => Proceed
            | Raised e => Return (clone_failure_report e)
            end,
   mkWorld (trace w ++ clone_events env repo_url) None (studio w)
           match clone_outcome env with
           | Returned out => append_output (clone_result repo_url out) initial_results
           | Raised e => clone_failure_report e
           end).
Proof.
  intros Hr. unfold clone_repo, clone_outcome, clone_events, preclean_returns.
  unfold_monad. rewrite Hr. cbn -[Nat.ltb Nat.sub String.append slice_to].
  destruct (duration (preclean env) <? 120)%nat;
    cbn -[Nat.ltb Nat.sub String.append slice_to].
  - destruct (finish (preclean env)) as [v|[m|m|m]];
      cbn -[Nat.ltb Nat.sub String.append slice_to];
      rewrite <- ?app_assoc; try reflexivity.
    destruct (duration (clone env) <? 120 - duration (preclean env))%nat;
      cbn -[Nat.ltb Nat.sub String.append slice_to];
      [destruct (finish (clone env)) as [out|[m|m|m]];
       cbn -[Nat.ltb Nat.sub String.append slice_to]|];
      rewrite <- ?app_assoc; reflexivity.
  - rewrite <- ?app_assoc; reflexivity.
Qed.

Lemma teardown_eq (env : Env) (w : World) :
  alarm w = None ->
  teardown env w =
  (Returned tt,
   mkWorld (trace w ++ teardown_events env) None (studio w) (results w)).
Proof.
  intros Hw. unfold teardown, teardown_events. unfold_monad. rewrite Hw.
  cbn -[String.append].
  destruct (finish (cleanup env)) as [v|e]; cbn -[String.append];
    destruct (finish (stop env)) as [v'|e']; cbn -[String.append];
    rewrite <- ?app_assoc; reflexivity.
Qed.

Lemma primary_path_eq (env : Env) (repo_url project_name : string)
    (commands : list string) (w : World) :
  alarm w = None ->
  results w = initial_results ->
  exists w',
    primary_path env repo_url project_name commands (teamspace env) (user_param env) w =
      (Returned (fst (run_spec env repo_url project_name commands)), w') /\
    trace w' = (trace w ++ snd (run_spec env repo_url project_name commands))%list /\
    alarm w' = None.
Proof.
  intros Hw Hr. unfold primary_path, run_spec.
  erewrite bind_returned by (apply acquire_studio_eq; assumption).
  destruct (fst (acquire_result env)); cbn [negb].
  - erewrite bind_returned by apply start_studio_eq.
    erewrite bind_returned by apply test_studio_eq.
    destruct (guarded (probe env) 30) as [v|e].
    + erewrite bind_returned by (apply clone_repo_eq; assumption).
      destruct (clone_outcome env) as [out|e].
      * erewrite bind_returned by (apply run_commands_eq; reflexivity).
        erewrite bind_returned by (apply teardown_eq; reflexivity).
        unfold modify_results, get_results, bind, ret.
        cbn [trace alarm studio results fst snd].
        eexists; split; [reflexivity|]. cbn [trace alarm fst snd].
        split; [|reflexivity]. now rewrite <- !app_assoc.
      * unfold ret. eexists; split; [reflexivity|]. cbn [trace alarm fst snd].
        split; [|reflexivity]. now rewrite <- !app_assoc.
    + unfold ret. eexists; split; [reflexivity|]. cbn [trace alarm fst snd].
      split; [|reflexivity]. now rewrite <- !app_assoc.
  - unfold ret. eexists; split; [reflexivity|]. cbn [trace alarm fst snd].
    split; reflexivity.
Qed.

Lemma credentials_ok_user (env : Env) :
  credentials_ok env = true ->
  truthy (LIGHTNING_API_KEY env) = true /\
  py_or (LIGHTNING_USERNAME env) (LIGHTNING_USER_ID env) = Some (user_param env) /\
  is_empty (user_param env) = false.
Proof.
  unfold credentials_ok, user_param. intros H.
  apply andb_true_iff in H as [Hk Hu]. split; [assumption|].
  destruct (py_or _ _) as [u|]; cbn in *; [|discriminate].
  split; [reflexivity|]. now destruct (is_empty u).
Qed.

(** With usable credentials a run from a fresh process returns the report
    of [run_spec] after exactly the calls of [run_spec]; it never raises,
    so the outer handler and the CLI fallback are not entered. *)
Lemma run_eq (env : Env) (repo_url project_name : string) (commands : list string) :
  credentials_ok env = true ->
  fst (run env repo_url project_name commands) =
    Returned (fst (run_spec env repo_url project_name commands)) /\
  trace (snd (run env repo_url project_name commands)) =
    snd (run_spec env repo_url project_name commands) /\
  alarm (snd (run env repo_url project_name commands)) = None.
Proof.
  intros Hc. apply credentials_ok_user in Hc as (Hk & Hu & He).
  unfold run, execute_in_cloud. rewrite Hk, Hu, He. cbn [negb].
  destruct (primary_path_eq env repo_url project_name commands initial_world
              eq_refl eq_refl) as (w' & Hp & Ht & Ha).
  unfold try_except. fold (teamspace env). rewrite Hp. cbn [fst snd].
  rewrite Ht. auto.
Qed.

(** ** Session acquisition *)









(** ** The responsiveness probe *)

Lemma no_cli_event_app (l1 l2 : list Event) :
  existsb is_cli_event (l1 ++ l2) = existsb is_cli_event l1 || existsb is_cli_event l2.
Proof. apply existsb_app. Qed.

Lemma no_cli_event_acquire (env : Env) (n ts u : string) :
  existsb is_cli_event (acquire_events env n ts u) = false.
Proof.
  unfold acquire_events.
  destruct (finish (connect env)); [reflexivity|].
  destruct (finish (create env)); reflexivity.
Qed.

Lemma no_cli_event_start (env : Env) : existsb is_cli_event (start_events env) = false.
Proof. unfold start_events. destruct (is_returned _); reflexivity. Qed.

(** C7 (as amended).  Once a session is acquired, a probe that fails,
    by running into its 30-second guard or by raising anything else, ends
    the run with a terminal failure report returned directly: overall
    success false, no CommandResult, a message that tells the two cases
    apart; the probe is the last call of the run and no command-line
    fallback call is made. *)
Theorem probe_failure_is_terminal (env : Env) (repo_url project_name : string)
    (commands : list string) (e : exn) :
  credentials_ok env = true ->
  fst (acquire_result env) = true ->
  guarded (probe env) 30 = Raised e ->
  fst (run env repo_url project_name commands) = Returned (probe_failure_report e) /\
  success (probe_failure_report e) = false /\
  outputs (probe_failure_report e) = [] /\
  (is_timeout e = true ->
   errors (probe_failure_report e) =
     ["Studio is not responsive (timeout)"; "Try again or check Lightning AI dashboard"]) /\
  (is_timeout e = false ->
   errors (probe_failure_report e) = ["Studio not responsive: " ++ str e]) /\
  trace (snd (run env repo_url project_name commands)) =
    (acquire_events env (studio_name project_name repo_url) (teamspace env)
                    (user_param env) ++
     start_events env ++ guard_events 30 (StudioRun probe_cmd))%list /\
  existsb is_cli_event (trace (snd (run env repo_url project_name commands))) = false.
Proof.
  intros Hc Ha Hp.
  destruct (run_eq env repo_url project_name commands Hc) as (Hr & Ht & _).
  rewrite Hr, Ht. unfold run_spec. rewrite Ha, Hp. cbn [negb fst snd].
  repeat split.
  - now destruct e.
  - now destruct e.
  - destruct e; cbn; intros; congruence.
  - destruct e; cbn; intros; congruence.
  - rewrite !no_cli_event_app, no_cli_event_acquire, no_cli_event_start.
    reflexivity.
Qed.

Lemma probe_failure_is_terminal_witness :
  credentials_ok env_probe_hangs = true /\
  fst (acquire_result env_probe_hangs) = true /\
  guarded (probe env_probe_hangs) 30 = Raised (TimeoutError "Operation timed out") /\
  fst (run env_probe_hangs sample_url "demo" install_then_test) =
    Returned (probe_failure_report (TimeoutError "Operation timed out")).
Proof.
  split; [reflexivity|]. split; [reflexivity|]. split; [reflexivity|].
  apply (probe_failure_is_terminal env_probe_hangs sample_url "demo" install_then_test
           (TimeoutError "Operation timed out") eq_refl eq_refl eq_refl).
Defined.

(** C7 as stated fails: with the fallback enabled, a probe that raises
    an error other than a timeout does not reach the fallback; the run
    returns the terminal report directly and makes no command-line call. *)
Lemma probe_error_returned_directly :
  use_cli_fallback env_probe_error = true /\
  guarded (probe env_probe_error) 30 = Raised (OtherError "connection reset") /\
  fst (run env_probe_error sample_url "demo" install_then_test) =
    Returned (mkReport false [] ["Studio not responsive: connection reset"]) /\
  existsb is_cli_event
    (trace (snd (run env_probe_error sample_url "demo" install_then_test))) = false.
Proof. repeat split. Qed.

(** ** The command pipeline *)

Lemma stops_not_install (env : Env) (i : nat) (cmd : string) :
  install_class cmd = false -> stops env i cmd = false.
Proof. unfold stops. now intros ->. Qed.

Lemma stops_timeout (env : Env) (i : nat) (cmd m : string) :
  command_outcome env i cmd = Raised (TimeoutError m) -> stops env i cmd = false.
Proof. unfold stops, hard_failure. intros ->. apply andb_false_r. Qed.

Lemma stops_success (env : Env) (i : nat) (cmd : string) (r : Report) :
  stops env i cmd = true -> success (record_step env i cmd r) = false.
Proof.
  unfold stops, hard_failure, record_step. intros H.
  apply andb_true_iff in H as [Hi Hf]. rewrite Hi.
  destruct (command_outcome env i cmd) as [out|[m|m|m]];
    try discriminate; reflexivity.
Qed.

Lemma attempted_all (env : Env) (commands : list string) :
  forall i,
    (forall j c, nth_error commands j = Some c -> stops env (i + j) c = false) ->
    attempted env i commands = commands.
Proof.
  induction commands as [|cmd rest IH]; intros i H; [reflexivity|].
  cbn [attempted].
  pose proof (H 0 cmd eq_refl) as H0. rewrite Nat.add_0_r in H0. rewrite H0.
  f_equal. apply IH. intros j c Hj.
  replace (S i + j) with (i + S j) by lia. now apply H.
Qed.

Lemma attempted_stop (env : Env) (pre : list string) :
  forall i c post r,
    (forall j c', nth_error pre j = Some c' -> stops env (i + j) c' = false) ->
    stops env (i + List.length pre) c = true ->
    attempted env i (pre ++ c :: post) = (pre ++ [c])%list /\
    success (record_all env i (pre ++ c :: post) r) = false.
Proof.
  induction pre as [|p pre IH]; intros i c post r H Hs.
  - cbn in *. rewrite Nat.add_0_r in Hs. rewrite Hs.
    split; [reflexivity|]. now apply stops_success.
  - cbn [List.length] in Hs. rewrite <- !app_comm_cons. cbn [attempted record_all].
    pose proof (H 0 p eq_refl) as H0. rewrite Nat.add_0_r in H0. rewrite H0.
    destruct (IH (S i) c post (record_step env i p r)) as [IHa IHr].
    + intros j c' Hj. replace (S i + j) with (i + S j) by lia. now apply H.
    + now replace (S i + List.length pre) with (i + S (List.length pre)) by lia.
    + rewrite IHa, IHr. split; reflexivity.
Qed.

(** C2 (as amended).  In the command loop, started with no alarm
    pending: when an install/download-class command fails with an error
    other than the guard's timeout, the calls made are exactly those of
    the commands up to and including it, so no later command is attempted,
    and overall success is set to false; when no command does so, every
    command of the list is attempted, whatever else fails.  A command of
    any other class never stops the loop, and neither does a command that
    runs into its guard, install-class or not. *)
Theorem pipeline_stop_policy (env : Env) (commands : list string) (w : World) :
  alarm w = None ->
  (forall pre c post,
     commands = (pre ++ c :: post)%list ->
     (forall j c', nth_error pre j = Some c' -> stops env j c' = false) ->
     install_class c = true ->
     hard_failure env (List.length pre) c = true ->
     trace (snd (run_commands env 0 commands w)) =
       (trace w ++ flat_map (step_events env) (pre ++ [c]))%list /\
     success (results (snd (run_commands env 0 commands w))) = false) /\
  ((forall j c, nth_error commands j = Some c -> stops env j c = false) ->
   trace (snd (run_commands env 0 commands w)) =
     (trace w ++ flat_map (step_events env) commands)%list) /\
  (forall i c, install_class c = false -> stops env i c = false) /\
  (forall i c m, command_outcome env i c = Raised (TimeoutError m) ->
                 stops env i c = false).
Proof.
  intros Hw. rewrite (run_commands_eq env commands 0 w Hw). cbn [snd trace results].
  repeat split.
  - subst commands.
    destruct (attempted_stop env pre 0 c post (results w)) as [Ha _];
      [assumption| unfold stops; cbn [Nat.add]; now rewrite H1, H2 |].
    now rewrite Ha.
  - subst commands.
    destruct (attempted_stop env pre 0 c post (results w)) as [_ Hs];
      [assumption| unfold stops; cbn [Nat.add]; now rewrite H1, H2 |].
    exact Hs.
  - intros H. now rewrite attempted_all.
  - intros i c. apply stops_not_install.
  - intros i c m. apply stops_timeout.
Qed.

Lemma pipeline_stop_policy_witness :
  alarm initial_world = None /\
  install_class "pip install x" = true /\
  hard_failure env_install_fails 0 "pip install x" = true /\
  trace (snd (run_commands env_install_fails 0 install_then_test initial_world)) =
    step_events env_install_fails "pip install x" /\
  success (results (snd (run_commands env_install_fails 0 install_then_test
                                      initial_world))) = false.
Proof.
  split; [reflexivity|]. split; [reflexivity|]. split; [reflexivity|].
  apply (pipeline_stop_policy env_install_fails install_then_test initial_world eq_refl)
    with (pre := []) (c := "pip install x") (post := ["pytest"]).
  - reflexivity.
  - intros j c' Hj. destruct j; discriminate Hj.
  - reflexivity.
  - reflexivity.
Defined.

(** C2 as stated fails: the install-class command "pip install x" runs
    into its guard, so it failed (its CommandResult is recorded with
    success false), yet "pytest" is attempted after it and overall success
    is still true. *)
Lemma install_timeout_does_not_stop :
  install_class "pip install x" = true /\
  failed env_install_hangs 0 "pip install x" = true /\
  nth_error (trace (snd (run env_install_hangs sample_url "demo" install_then_test))) 21 =
    Some (StudioRun (full_cmd env_install_hangs "pytest")) /\
  fst (run env_install_hangs sample_url "demo" install_then_test) =
    Returned
      (mkReport true
         [ clone_result sample_url "Cloning into repo...";
           mkResult "pip install x" "" "Command timed out after 600s" 124 false;
           mkResult "pytest" "ok" "" 0 true ]
         [ "Command 'pip install x' Command timed out after 600s" ]).
Proof. repeat split. Qed.

(** C6.  In the command loop every attempted command is classified on
    its lower-cased text, so case does not matter: 600 seconds when it
    mentions "install" or "download", 300 when it mentions "test", 180
    otherwise.  It is run remotely as
    [cd <workspace> && timeout <budget> <command>], and the alarm of the
    surrounding guard is set to the budget plus 30 seconds. *)
Theorem command_budget_and_invocation (env : Env) (commands : list string) (w : World) :
  alarm w = None ->
  trace (snd (run_commands env 0 commands w)) =
    (trace w ++
     flat_map
       (fun cmd =>
          [ SignalHandler;
            SignalAlarm (budget (classify cmd) + 30);
            StudioRun ("cd " ++ repo_dir env ++ " && timeout " ++
                       of_nat (budget (classify cmd)) ++ " " ++ cmd);
            SignalAlarm 0 ])
       (attempted env 0 commands))%list /\
  (forall cmd, timeout_seconds cmd = budget (classify cmd)) /\
  (forall cmd, classify (lower cmd) = classify cmd) /\
  (forall cmd, classify cmd = InstallClass <->
               contains "install" (lower cmd) = true \/
               contains "download" (lower cmd) = true) /\
  (forall cmd, classify cmd = TestClass <->
               contains "install" (lower cmd) = false /\
               contains "download" (lower cmd) = false /\
               contains "test" (lower cmd) = true).
Proof.
  intros Hw.
  assert (Hb : forall cmd, timeout_seconds cmd = budget (classify cmd)).
  { intros cmd. unfold timeout_seconds, install_class, classify.
    destruct (contains "install" (lower cmd)); [reflexivity|].
    destruct (contains "download" (lower cmd)); [reflexivity|].
    destruct (contains "test" (lower cmd)); reflexivity. }
  repeat split.
  - rewrite (run_commands_eq env commands 0 w Hw). cbn [snd trace].
    f_equal. apply flat_map_ext. intros cmd.
    unfold step_events, guard_events, full_cmd. now rewrite Hb.
  - exact Hb.
  - intros cmd. unfold classify. now rewrite lower_idem.
  - unfold classify.
    destruct (contains "install" (lower cmd)); [auto|].
    destruct (contains "download" (lower cmd)); [auto|].
    destruct (contains "test" (lower cmd)); discriminate.
  - unfold classify. intros [H|H]; rewrite H; [reflexivity|].
    now destruct (contains "install" (lower cmd)).
  - unfold classify in H.
    destruct (contains "install" (lower cmd)); [discriminate|reflexivity].
  - unfold classify in H.
    destruct (contains "install" (lower cmd)); [discriminate|].
    destruct (contains "download" (lower cmd)); [discriminate|reflexivity].
  - unfold classify in H.
    destruct (contains "install" (lower cmd)); [discriminate|].
    destruct (contains "download" (lower cmd)); [discriminate|].
    destruct (contains "test" (lower cmd)); [reflexivity|discriminate].
  - unfold classify. intros (-> & -> & ->). reflexivity.
Qed.

Lemma command_budget_and_invocation_witness :
  alarm initial_world = None /\
  trace (snd (run_commands env_test_fails 0 ["PIP Install x"; "PyTest -q"; "ls"]
                           initial_world)) =
    [ SignalHandler; SignalAlarm 630;
      StudioRun
        "cd /teamspace/studios/this_studio/repo-1700000000 && timeout 600 PIP Install x";
      SignalAlarm 0;
      SignalHandler; SignalAlarm 330;
      StudioRun
        "cd /teamspace/studios/this_studio/repo-1700000000 && timeout 300 PyTest -q";
      SignalAlarm 0;
      SignalHandler; SignalAlarm 210;
      StudioRun "cd /teamspace/studios/this_studio/repo-1700000000 && timeout 180 ls";
      SignalAlarm 0 ].
Proof.
  split; [reflexivity|].
  apply (command_budget_and_invocation env_test_fails
           ["PIP Install x"; "PyTest -q"; "ls"] initial_world eq_refl).
Defined.

(** A command that mentions both an installation and a test gets the
    installation budget. *)
Example classify_install_and_test :
  classify "pip install pytest" = InstallClass /\
  timeout_seconds "pip install pytest" = 600 /\
  timeout_seconds "curl -O DOWNLOAD.tgz" = 600 /\
  timeout_seconds "ls -la" = 180.
Proof. repeat split. Qed.

(** ** The scenario: install succeeds, test fails *)

Lemma promote_success (r : Report) : success r = true -> promote r = r.
Proof. unfold promote. intros ->. now rewrite andb_false_r. Qed.

(** C1 (as amended).  For commands ["pip install x", "pytest"], in every
    run that reaches the pipeline and in which the install command
    succeeds and the test command fails with an error that is not a
    timeout: the report holds the clone result followed by one
    CommandResult for each of the two commands, its error list is the one
    test-failure message, its overall success flag is true, and the two
    teardown calls, workspace removal and studio stop, are the last calls
    of the run. *)
Theorem install_ok_test_fails (env : Env) (repo_url project_name : string)
    (clone_output out : string) (e : exn) :
  credentials_ok env = true ->
  fst (acquire_result env) = true ->
  is_returned (guarded (probe env) 30) = true ->
  clone_outcome env = Returned clone_output ->
  command_outcome env 0 "pip install x" = Returned out ->
  command_outcome env 1 "pytest" = Raised e ->
  is_timeout e = false ->
  fst (run env repo_url project_name ["pip install x"; "pytest"]) =
    Returned
      (mkReport true
         [ clone_result repo_url clone_output;
           mkResult "pip install x" (slice_to 5000 out) "" 0 true;
           mkResult "pytest" "" (slice_to 2000 (str e)) 1 false ]
         [ "Command 'pytest' failed: " ++ slice_to 500 (str e) ]) /\
  exists before,
    trace (snd (run env repo_url project_name ["pip install x"; "pytest"])) =
      (before ++
       step_events env "pip install x" ++ step_events env "pytest" ++
       [StudioRun ("rm -rf " ++ repo_dir env); StudioStop])%list.
Proof.
  intros Hc Ha Hp Hcl H0 H1 He.
  destruct (run_eq env repo_url project_name ["pip install x"; "pytest"] Hc)
    as (Hr & Ht & _).
  rewrite Hr, Ht. unfold run_spec. rewrite Ha, Hcl. cbn [negb].
  destruct (guarded (probe env) 30) as [v|]; [|discriminate Hp].
  assert (Hs0 : stops env 0 "pip install x" = false).
  { unfold stops, hard_failure. rewrite H0. apply andb_false_r. }
  assert (Hs1 : stops env 1 "pytest" = false) by (now apply stops_not_install).
  cbn [record_all attempted fst snd]. rewrite Hs0, Hs1.
  split.
  - f_equal. rewrite promote_success.
    + unfold record_step. rewrite H0, H1.
      destruct e as [m|m|m]; [discriminate He| |]; reflexivity.
    + unfold record_step. rewrite H0, H1.
      destruct e as [m|m|m]; [discriminate He| |]; reflexivity.
  - eexists. cbn [flat_map]. unfold teardown_events.
    rewrite app_nil_r, !app_assoc. reflexivity.
Qed.

Lemma install_ok_test_fails_witness :
  credentials_ok env_test_fails = true /\
  command_outcome env_test_fails 0 "pip install x" = Returned "installed" /\
  command_outcome env_test_fails 1 "pytest" = Raised (OtherError "2 tests failed") /\
  fst (run env_test_fails sample_url "demo" ["pip install x"; "pytest"]) =
    Returned
      (mkReport true
         [ clone_result sample_url "Cloning into repo...";
           mkResult "pip install x" "installed" "" 0 true;
           mkResult "pytest" "" "2 tests failed" 1 false ]
         [ "Command 'pytest' failed: 2 tests failed" ]).
Proof.
  split; [reflexivity|]. split; [reflexivity|]. split; [reflexivity|].
  apply (install_ok_test_fails env_test_fails sample_url "demo"
           "Cloning into repo..." "installed" (OtherError "2 tests failed")
           eq_refl eq_refl eq_refl eq_refl eq_refl eq_refl eq_refl).
Defined.

(** C1 as stated fails: in this run the install command succeeds and the
    test command fails with an error that is not a timeout, and the
    returned report has overall success true, not false. *)
Lemma install_ok_test_fails_reports_success :
  command_outcome env_test_fails 0 "pip install x" = Returned "installed" /\
  command_outcome env_test_fails 1 "pytest" = Raised (OtherError "2 tests failed") /\
  exists r,
    fst (run env_test_fails sample_url "demo" ["pip install x"; "pytest"]) = Returned r /\
    success r <> false.
Proof.
  split; [reflexivity|]. split; [reflexivity|].
  exists (mkReport true
            [ clone_result sample_url "Cloning into repo...";
              mkResult "pip install x" "installed" "" 0 true;
              mkResult "pytest" "" "2 tests failed" 1 false ]
            [ "Command 'pytest' failed: 2 tests failed" ]).
  split; [reflexivity|discriminate].
Qed.

(** ** The promotion rule *)

Lemma promote_cases (r : Report) :
  promote r =
  if negb (success r) && install_succeeded r
  then mkReport true (outputs r) (errors r ++ [promotion_note])
  else r.
Proof.
  unfold promote, install_succeeded.
  destruct (outputs r) as [|o l] eqn:Ho; destruct (success r) eqn:Hs;
    cbn [List.length Nat.ltb Nat.leb negb andb existsb]; try reflexivity.
  destruct (_ || _); [|reflexivity].
  unfold append_error, set_success. cbn. now rewrite Ho.
Qed.

Lemma install_succeeded_iff (r : Report) :
  install_succeeded r = true <->
  exists o, In o (outputs r) /\ cmd_success o = true /\
            contains "install" (lower (command o)) = true.
Proof.
  unfold install_succeeded. rewrite existsb_exists.
  split; intros (o & Hin & H); exists o; split; try assumption.
  - now apply andb_true_iff.
  - now apply andb_true_iff.
Qed.

(** C3 (as amended).  After the pipeline, when overall success is false
    and some recorded CommandResult both succeeded and has "install" in
    its lower-cased command text, overall success becomes true and the
    note is appended to the errors; in every other case, in particular
    when the only successes are download commands, the report is left as
    it is.  Applying the rule twice gives what applying it once gives. *)
Theorem promotion_rule (r : Report) :
  (success r = false ->
   (exists o, In o (outputs r) /\ cmd_success o = true /\
              contains "install" (lower (command o)) = true) ->
   promote r = mkReport true (outputs r) (errors r ++ [promotion_note])) /\
  (success r = true \/
   (forall o, In o (outputs r) -> cmd_success o = true ->
              contains "install" (lower (command o)) = false) ->
   promote r = r) /\
  promote (promote r) = promote r.
Proof.
  repeat split.
  - intros Hs Hex. rewrite promote_cases, Hs.
    apply install_succeeded_iff in Hex. now rewrite Hex.
  - intros [Hs|Hall]; [now apply promote_success|].
    rewrite promote_cases.
    destruct (install_succeeded r) eqn:E; [|now rewrite andb_false_r].
    apply install_succeeded_iff in E as (o & Hin & Hok & Hi).
    rewrite (Hall o Hin Hok) in Hi. discriminate.
  - rewrite (promote_cases r).
    destruct (negb (success r) && install_succeeded r) eqn:E.
    + now apply promote_success.
    + rewrite promote_cases, E. reflexivity.
Qed.

Lemma promotion_rule_witness :
  promote (mkReport false
             [ mkResult "pip install a" "ok" "" 0 true;
               mkResult "pip install b" "" "no such package" 1 false ]
             [ "Command 'pip install b' failed: no such package" ]) =
  mkReport true
    [ mkResult "pip install a" "ok" "" 0 true;
      mkResult "pip install b" "" "no such package" 1 false ]
    [ "Command 'pip install b' failed: no such package"; promotion_note ].
Proof.
  apply (proj1 (promotion_rule
           (mkReport false
              [ mkResult "pip install a" "ok" "" 0 true;
                mkResult "pip install b" "" "no such package" 1 false ]
              [ "Command 'pip install b' failed: no such package" ]))).
  - reflexivity.
  - exists (mkResult "pip install a" "ok" "" 0 true).
    split; [left; reflexivity|]. split; reflexivity.
Defined.

(** C3 as stated fails: a download command succeeds, it is classified as
    an installation/download command, the install command after it fails,
    so overall success is false after the pipeline; the rule does not flip
    it and the run reports failure. *)
Lemma download_success_not_promoted :
  install_class "curl -O download.tgz" = true /\
  command_outcome env_download_ok_install_fails 0 "curl -O download.tgz" =
    Returned "saved" /\
  fst (run env_download_ok_install_fails sample_url "demo" download_then_install) =
    Returned
      (mkReport false
         [ clone_result sample_url "Cloning into repo...";
           mkResult "curl -O download.tgz" "saved" "" 0 true;
           mkResult "pip install x" "" "no matching distribution" 1 false ]
         [ "Command 'pip install x' failed: no matching distribution" ]).
Proof. repeat split. Qed.

(** ** The command-line fallback *)

Lemma execute_via_cli_world_independent (env : Env) (repo_url project_name : string)
    (commands : list string) (w1 w2 : World) :
  fst (execute_via_cli env repo_url project_name commands w1) =
  fst (execute_via_cli env repo_url project_name commands w2).
Proof.
  unfold execute_via_cli. unfold_monad. cbn -[Nat.ltb Z.eqb String.append].
  destruct (p_duration (cli_version env) <? 10)%nat; [|reflexivity].
  destruct (p_finish (cli_version env)) as [v|[m|m|m]]; try reflexivity.
  destruct (returncode v =? 0)%Z; cbn -[Nat.ltb Z.eqb String.append]; [|reflexivity].
  destruct (write_script env) as [[]|[m|m|m]]; try reflexivity.
  destruct (p_duration (cli_run env) <? 600)%nat; [|reflexivity].
  destruct (p_finish (cli_run env)) as [p|[m|m|m]]; try reflexivity.
  destruct (remove_script env) as [[]|[m|m|m]]; try reflexivity.
  destruct (returncode p =? 0)%Z; reflexivity.
Qed.

Lemma execute_via_cli_success (env : Env) (repo_url project_name : string)
    (commands : list string) (w : World) (r : Report) :
  fst (execute_via_cli env repo_url project_name commands w) = Returned r ->
  success r = true ->
  exists p,
    p_finish (cli_run env) = Returned p /\
    r = mkReport true [mkResult "all_commands" (p_stdout p) (p_stderr p) 0 true] [].
Proof.
  unfold execute_via_cli. unfold_monad. cbn -[Nat.ltb Z.eqb String.append].
  destruct (p_duration (cli_version env) <? 10)%nat;
    [|cbn; intros [= <-]; discriminate].
  destruct (p_finish (cli_version env)) as [v|[m|m|m]];
    try (cbn; intros [= <-]; discriminate).
  destruct (returncode v =? 0)%Z; cbn -[Nat.ltb Z.eqb String.append];
    [|intros [= <-]; discriminate].
  destruct (write_script env) as [[]|[m|m|m]];
    try (cbn; intros [= <-]; discriminate).
  destruct (p_duration (cli_run env) <? 600)%nat;
    [|cbn; intros [= <-]; discriminate].
  destruct (p_finish (cli_run env)) as [p|[m|m|m]];
    try (cbn; intros [= <-]; discriminate).
  destruct (remove_script env) as [[]|[m|m|m]];
    try (cbn; intros [= <-]; discriminate).
  destruct (returncode p =? 0)%Z; cbn; intros [= <-]; [|discriminate].
  intros _. exists p. split; reflexivity.
Qed.

Lemma stop_swallowed (r : response) (w : World) :
  exists w',
    try_except (bind (remote StudioStop r) (fun _ => ret tt)) (fun _ => ret tt) w =
    (Returned tt, w').
Proof.
  unfold_monad.
  destruct (alarm w) as [b|]; [destruct (duration r <? b)%nat|];
    try destruct (finish r); eexists; reflexivity.
Qed.

(** C10.  When an error has escaped the primary path, the fallback is
    enabled and the command-line run succeeds, the outer handler returns
    the fallback's own report in place of the primary one: exactly one
    CommandResult, labelled "all_commands", and an empty error list.  That
    report is fixed by the environment alone, whatever CommandResults
    (the clone result included) and error strings the primary path had
    recorded in the state the handler starts from. *)
Theorem fallback_report_replaces_primary (env : Env) (repo_url project_name : string)
    (commands : list string) (e : exn) (w : World) (r : Report) :
  use_cli_fallback env = true ->
  fst (execute_via_cli env repo_url project_name commands initial_world) = Returned r ->
  success r = true ->
  fst (sdk_failure_handler env repo_url project_name commands e w) = Returned r /\
  (exists p,
     p_finish (cli_run env) = Returned p /\
     r = mkReport true [mkResult "all_commands" (p_stdout p) (p_stderr p) 0 true] []) /\
  List.length (outputs r) = 1 /\
  errors r = [].
Proof.
  intros Hf Hr Hs.
  destruct (execute_via_cli_success _ _ _ _ _ _ Hr Hs) as (p & Hp & ->).
  split; [|split; [exists p; split; [assumption|reflexivity]|split; reflexivity]].
  unfold sdk_failure_handler.
  erewrite bind_returned by reflexivity.
  erewrite bind_returned by reflexivity.
  erewrite bind_returned by reflexivity.
  rewrite Hf.
  match goal with
  | |- fst (bind ?stopping _ ?w0) = _ =>
      assert (Hstop : exists w', stopping w0 = (Returned tt, w'))
  end.
  { cbn [studio]. destruct (studio w); [apply stop_swallowed|eexists; reflexivity]. }
  destruct Hstop as (w' & Hstop). erewrite bind_returned by exact Hstop.
  unfold bind.
  pose proof (execute_via_cli_world_independent env repo_url project_name commands
                w' initial_world) as Hi.
  rewrite Hr in Hi.
  destruct (execute_via_cli env repo_url project_name commands w') as [o w''].
  cbn [fst] in Hi. subst o. reflexivity.
Qed.

Lemma fallback_report_replaces_primary_witness :
  use_cli_fallback env_probe_error = true /\
  fst (sdk_failure_handler env_probe_error sample_url "demo" install_then_test
         (OtherError "stderr closed") world_after_clone) =
    Returned (mkReport true [mkResult "all_commands" "done" "" 0 true] []).
Proof.
  split; [reflexivity|].
  apply (fallback_report_replaces_primary env_probe_error sample_url "demo"
           install_then_test (OtherError "stderr closed") world_after_clone
           (mkReport true [mkResult "all_commands" "done" "" 0 true] [])
           eq_refl eq_refl eq_refl).
Defined.

(** ** Size of the captured output *)

(** On the primary path every CommandResult a loop iteration records
    keeps at most 5000 characters of output and 2000 of error text. *)
Lemma record_step_capped (env : Env) (i : nat) (cmd : string) (r : Report) :
  exists o,
    outputs (record_step env i cmd r) = (outputs r ++ [o])%list /\
    String.length (stdout o) <= 5000 /\ String.length (stderr o) <= 2000.
Proof.
  unfold record_step.
  destruct (command_outcome env i cmd) as [out|[m|m|m]].
  - eexists; split; [reflexivity|]. cbn [stdout stderr].
    split; [apply length_slice_to|cbn; lia].
  - eexists; split; [reflexivity|]. cbn [stdout stderr]. split; [cbn; lia|].
    unfold timeout_seconds.
    destruct (install_class cmd); [cbn; lia|].
    destruct (contains "test" (lower cmd)); cbn; lia.
  - destruct (install_class cmd); eexists; (split; [reflexivity|]);
      cbn [stdout stderr]; (split; [cbn; lia|apply length_slice_to]).
  - destruct (install_class cmd); eexists; (split; [reflexivity|]);
      cbn [stdout stderr]; (split; [cbn; lia|apply length_slice_to]).
Qed.

(** C9, at the failing input.  On the fallback path the captured output
    is recorded as it is: a command-line run that prints 6000 characters
    yields a CommandResult whose output has 6000 characters, more than
    the 5000 the primary path keeps. *)
Theorem fallback_output_uncapped :
  fst (execute_via_cli env_big_output sample_url "demo" install_then_test initial_world) =
    Returned (mkReport true
                [mkResult "all_commands" (repeat_char "x" (60 * 100)) "" 0 true] []) /\
  String.length (repeat_char "x" (60 * 100)) = 60 * 100 /\
  5000 < String.length (repeat_char "x" (60 * 100)).
Proof.
  split; [reflexivity|].
  rewrite length_repeat_char. split; [reflexivity|].
  apply Nat.ltb_lt. vm_compute. reflexivity.
Qed.

(** ** Whole runs *)

Lemma truthy_py_or_credentials (env : Env) :
  truthy (LIGHTNING_API_KEY env) = true ->
  truthy (py_or (LIGHTNING_USERNAME env) (LIGHTNING_USER_ID env)) = true ->
  credentials_ok env = true.
Proof. unfold credentials_ok. now intros -> ->. Qed.

Lemma run_without_credentials (env : Env) (repo_url project_name : string)
    (commands : list string) :
  credentials_ok env = false ->
  run env repo_url project_name commands =
  (Returned (if truthy (LIGHTNING_API_KEY env) then missing_user_report
             else missing_key_report),
   initial_world).
Proof.
  unfold credentials_ok, run, execute_in_cloud. intros H.
  destruct (truthy (LIGHTNING_API_KEY env)); cbn [negb andb] in *; [|reflexivity].
  destruct (py_or _ _) as [u|]; [|reflexivity].
  cbn in H. now destruct (is_empty u).
Qed.

(** Every run returns a report, the one of [final_report]. *)
Lemma run_total (env : Env) (repo_url project_name : string) (commands : list string) :
  fst (run env repo_url project_name commands) =
  Returned (final_report env repo_url project_name commands).
Proof.
  unfold final_report.
  destruct (credentials_ok env) eqn:Hc.
  - destruct (credentials_ok_user env Hc) as (Hk & Hu & He).
    rewrite Hk, Hu. cbn [negb truthy]. rewrite He. cbn [negb].
    now apply run_eq.
  - rewrite run_without_credentials by assumption. cbn [fst].
    unfold credentials_ok in Hc.
    destruct (truthy (LIGHTNING_API_KEY env)); cbn [negb andb] in *; [|reflexivity].
    now rewrite Hc.
Qed.

Lemma no_cli_event_clone (env : Env) (url : string) :
  existsb is_cli_event (clone_events env url) = false.
Proof. unfold clone_events. destruct (preclean_returns env); reflexivity. Qed.

Lemma no_cli_event_steps (env : Env) (l : list string) :
  existsb is_cli_event (flat_map (step_events env) l) = false.
Proof.
  induction l as [|c l IH]; [reflexivity|].
  cbn [flat_map]. rewrite no_cli_event_app, IH. reflexivity.
Qed.

(** X1.  A run without an API key, or with neither a user name nor a
    user id, returns the configuration error report and makes no call at
    all: the trace stays empty and no alarm was ever set. *)
Theorem configuration_error_makes_no_call (env : Env) (repo_url project_name : string)
    (commands : list string) :
  credentials_ok env = false ->
  snd (run env repo_url project_name commands) = initial_world /\
  (truthy (LIGHTNING_API_KEY env) = false ->
   fst (run env repo_url project_name commands) = Returned missing_key_report) /\
  (truthy (LIGHTNING_API_KEY env) = true ->
   fst (run env repo_url project_name commands) = Returned missing_user_report).
Proof.
  intros Hc. rewrite run_without_credentials by assumption. cbn [fst snd].
  repeat split; intros ->; reflexivity.
Qed.

Lemma configuration_error_makes_no_call_witness :
  credentials_ok env_no_key = false /\
  snd (run env_no_key sample_url "demo" install_then_test) = initial_world.
Proof.
  split; [reflexivity|].
  apply (configuration_error_makes_no_call env_no_key sample_url "demo"
           install_then_test eq_refl).
Defined.

(** X2.  Whatever the remote side answers, a run returns a report and
    makes no command-line call: every failure of a constructor, of
    [start], [run] or [stop], and every guard timeout is handled where it
    happens, so none of them reaches the outer handler and its fallback. *)
Theorem remote_failures_never_reach_fallback (env : Env)
    (repo_url project_name : string) (commands : list string) :
  is_returned (fst (run env repo_url project_name commands)) = true /\
  existsb is_cli_event (trace (snd (run env repo_url project_name commands))) = false /\
  alarm (snd (run env repo_url project_name commands)) = None.
Proof.
  split; [now rewrite run_total|].
  destruct (credentials_ok env) eqn:Hc.
  - destruct (run_eq env repo_url project_name commands Hc) as (_ & Ht & Ha).
    split; [|assumption]. rewrite Ht. unfold run_spec.
    destruct (fst (acquire_result env)); cbn [negb snd];
      [|apply no_cli_event_acquire].
    destruct (guarded (probe env) 30); [destruct (clone_outcome env)|]; cbn [snd];
      rewrite !no_cli_event_app, ?no_cli_event_steps, ?no_cli_event_clone,
        no_cli_event_acquire, no_cli_event_start; reflexivity.
  - rewrite run_without_credentials by assumption. split; reflexivity.
Qed.

Lemma record_all_invariant (env : Env) (P : Report -> Prop) :
  (forall i c r, P r -> P (record_step env i c r)) ->
  forall commands i r, P r -> P (record_all env i commands r).
Proof.
  intros Hstep. induction commands as [|c rest IH]; intros i r Hr; [assumption|].
  cbn [record_all]. destruct (stops env i c); auto.
Qed.

(** Either the run ended before the pipeline, with a failure report that
    holds no CommandResult, or it is the promoted pipeline report. *)
Lemma final_report_shape (env : Env) (repo_url project_name : string)
    (commands : list string) :
  (success (final_report env repo_url project_name commands) = false /\
   outputs (final_report env repo_url project_name commands) = [] /\
   errors (final_report env repo_url project_name commands) <> []) \/
  (exists out,
     clone_outcome env = Returned out /\
     final_report env repo_url project_name commands =
     promote (record_all env 0 commands
                (append_output (clone_result repo_url out) initial_results))).
Proof.
  unfold final_report.
  destruct (truthy (LIGHTNING_API_KEY env)); cbn [negb];
    [|left; repeat split; discriminate].
  destruct (truthy (py_or _ _)); cbn [negb];
    [|left; repeat split; discriminate].
  unfold run_spec.
  destruct (fst (acquire_result env)); cbn [negb fst];
    [|left; repeat split; discriminate].
  destruct (guarded (probe env) 30) as [v|e]; cbn [fst];
    [|left; destruct e; repeat split; discriminate].
  destruct (clone_outcome env) as [out|e]; cbn [fst];
    [|left; destruct e; repeat split; discriminate].
  right. exists out. split; reflexivity.
Qed.

Lemma record_step_keeps_error_invariant (env : Env) (i : nat) (c : string) (r : Report) :
  (success r = false -> errors r <> []) ->
  success (record_step env i c r) = false -> errors (record_step env i c r) <> [].
Proof.
  unfold record_step. intros Hr.
  destruct (command_outcome env i c) as [out|[m|m|m]]; cbn.
  - assumption.
  - intros _ H. now apply app_eq_nil in H as [_ H].
  - destruct (install_class c); cbn; intros _ H; now apply app_eq_nil in H as [_ H].
  - destruct (install_class c); cbn; intros _ H; now apply app_eq_nil in H as [_ H].
Qed.

(** X3.  The report of every run that fails says why: when its overall
    success flag is false its error list is not empty. *)
Theorem failed_report_has_an_error (env : Env) (repo_url project_name : string)
    (commands : list string) :
  exists r,
    fst (run env repo_url project_name commands) = Returned r /\
    (success r = false -> errors r <> []).
Proof.
  eexists. split; [apply run_total|].
  destruct (final_report_shape env repo_url project_name commands)
    as [(_ & _ & He)|(out & _ & ->)]; [intros _; exact He|].
  intros Hs. rewrite promote_cases in Hs |- *.
  destruct (negb _ && install_succeeded _); [discriminate Hs|].
  revert Hs.
  apply (record_all_invariant env (fun r => success r = false -> errors r <> [])).
  - intros i c r. apply record_step_keeps_error_invariant.
  - discriminate.
Qed.

Lemma record_step_commands (env : Env) (i : nat) (c : string) (r : Report) :
  map command (outputs (record_step env i c r)) =
  (map command (outputs r) ++ [c])%list.
Proof.
  unfold record_step.
  destruct (command_outcome env i c) as [out|[m|m|m]]; cbn;
    try destruct (install_class c); cbn; now rewrite map_app.
Qed.

Lemma record_all_commands (env : Env) (commands : list string) :
  forall i r,
    map command (outputs (record_all env i commands r)) =
    (map command (outputs r) ++ attempted env i commands)%list.
Proof.
  induction commands as [|c rest IH]; intros i r; cbn [record_all attempted].
  - now rewrite app_nil_r.
  - destruct (stops env i c).
    + apply record_step_commands.
    + rewrite IH, record_step_commands, <- app_assoc. reflexivity.
Qed.

Lemma attempted_prefix (env : Env) (commands : list string) :
  forall i, exists rest, commands = (attempted env i commands ++ rest)%list.
Proof.
  induction commands as [|c l IH]; intros i; cbn [attempted].
  - now exists [].
  - destruct (stops env i c).
    + now exists l.
    + destruct (IH (S i)) as [rest Hrest]. exists rest. cbn. now f_equal.
Qed.

Lemma outputs_promote (r : Report) : outputs (promote r) = outputs r.
Proof. rewrite promote_cases. now destruct (negb _ && _). Qed.

(** X4.  The CommandResults of a report follow the command list: either
    there is none, or they are the clone result followed by one result per
    attempted command, in the order given, the attempted commands being an
    initial part of the list.  So a report never holds more than one
    result per command plus the clone result. *)
Theorem outputs_follow_the_command_list (env : Env) (repo_url project_name : string)
    (commands : list string) :
  exists r,
    fst (run env repo_url project_name commands) = Returned r /\
    (outputs r = [] \/
     exists rest,
       ("git clone " ++ repo_url) :: commands =
       (map command (outputs r) ++ rest)%list) /\
    List.length (outputs r) <= List.length commands + 1.
Proof.
  eexists. split; [apply run_total|].
  destruct (final_report_shape env repo_url project_name commands)
    as [(_ & Ho & _)|(out & _ & ->)].
  - rewrite Ho. split; [now left|cbn; lia].
  - rewrite outputs_promote.
    pose proof (record_all_commands env commands 0
                  (append_output (clone_result repo_url out) initial_results)) as Hm.
    cbn [append_output initial_results outputs app map clone_result command] in Hm.
    destruct (attempted_prefix env commands 0) as [rest Hrest].
    split.
    + right. exists rest. rewrite Hm. cbn. f_equal. exact Hrest.
    + apply (f_equal (@List.length string)) in Hm, Hrest.
      rewrite length_map in Hm. rewrite Hm.
      rewrite length_app in Hrest |- *. rewrite length_map, length_app.
      cbn [List.length]. lia.
Qed.

(** ** What the verdict does not depend on *)

Lemma stops_env_ext (env1 env2 : Env) (i : nat) (c : string) :
  run_cmd env1 = run_cmd env2 -> stops env1 i c = stops env2 i c.
Proof. unfold stops, hard_failure, command_outcome. now intros ->. Qed.

Lemma record_step_env_ext (env1 env2 : Env) (i : nat) (c : string) (r : Report) :
  run_cmd env1 = run_cmd env2 -> record_step env1 i c r = record_step env2 i c r.
Proof. unfold record_step, command_outcome. now intros ->. Qed.

Lemma record_all_env_ext (env1 env2 : Env) (commands : list string) :
  run_cmd env1 = run_cmd env2 ->
  forall i r, record_all env1 i commands r = record_all env2 i commands r.
Proof.
  intros H. induction commands as [|c rest IH]; intros i r; [reflexivity|].
  cbn [record_all].
  rewrite (stops_env_ext env1 env2 i c H), (record_step_env_ext env1 env2 i c r H).
  destruct (stops env2 i c); [reflexivity|apply IH].
Qed.

Lemma final_report_env_ext (env1 env2 : Env) (repo_url project_name : string)
    (commands : list string) :
  LIGHTNING_API_KEY env1 = LIGHTNING_API_KEY env2 ->
  LIGHTNING_USERNAME env1 = LIGHTNING_USERNAME env2 ->
  LIGHTNING_USER_ID env1 = LIGHTNING_USER_ID env2 ->
  connect env1 = connect env2 ->
  create env1 = create env2 ->
  create_personal env1 = create_personal env2 ->
  probe env1 = probe env2 ->
  preclean env1 = preclean env2 ->
  clone env1 = clone env2 ->
  run_cmd env1 = run_cmd env2 ->
  final_report env1 repo_url project_name commands =
  final_report env2 repo_url project_name commands.
Proof.
  intros Hk Hu Hi Hc Hcr Hp Hpr Hpc Hcl Hr.
  unfold final_report, run_spec, acquire_result, clone_outcome.
  rewrite Hk, Hu, Hi, Hc, Hcr, Hp, Hpr, Hpc, Hcl.
  destruct (negb (truthy (LIGHTNING_API_KEY env2))); [reflexivity|].
  destruct (negb (truthy (py_or _ _))); [reflexivity|].
  destruct (negb _); [reflexivity|].
  destruct (guarded (probe env2) 30); [|reflexivity].
  destruct (if (duration (preclean env2) <? 120)%nat then _ else _); [|reflexivity].
  cbn [fst]. now rewrite (record_all_env_ext env1 env2 commands Hr).
Qed.

(** X5.  Teardown never changes the report: whatever the workspace
    removal and the studio stop answer, be it a failure of either or of
    both, the run returns the report it returns when both succeed. *)
Theorem teardown_never_changes_the_report (env : Env) (cleanup_r stop_r : response)
    (repo_url project_name : string) (commands : list string) :
  fst (run (with_teardown env cleanup_r stop_r) repo_url project_name commands) =
  fst (run env repo_url project_name commands).
Proof.
  rewrite !run_total. f_equal. now apply final_report_env_ext.
Qed.

(** X6.  Starting the studio never fails a run: whether [start] returns,
    raises or runs into its 120-second guard, the report is the same. *)
Theorem start_outcome_never_changes_the_report (env : Env) (start_r : response)
    (repo_url project_name : string) (commands : list string) :
  fst (run (with_start env start_r) repo_url project_name commands) =
  fst (run env repo_url project_name commands).
Proof.
  rewrite !run_total. f_equal. now apply final_report_env_ext.
Qed.

Lemma no_stop_app (l1 l2 : list Event) :
  existsb is_stop (l1 ++ l2) = existsb is_stop l1 || existsb is_stop l2.
Proof. apply existsb_app. Qed.

Lemma no_stop_acquire (env : Env) (n ts u : string) :
  existsb is_stop (acquire_events env n ts u) = false.
Proof.
  unfold acquire_events.
  destruct (finish (connect env)); [reflexivity|].
  destruct (finish (create env)); reflexivity.
Qed.

Lemma no_stop_start (env : Env) : existsb is_stop (start_events env) = false.
Proof. unfold start_events. destruct (is_returned _); reflexivity. Qed.

Lemma no_stop_clone (env : Env) (url : string) :
  existsb is_stop (clone_events env url) = false.
Proof. unfold clone_events. destruct (preclean_returns env); reflexivity. Qed.

(** X7.  A clone that fails or times out ends the run at once: the
    report is the clone failure alone, no command is run, and neither the
    workspace removal nor the studio stop is attempted, so the studio is
    left as it is. *)
Theorem clone_failure_ends_the_run (env : Env) (repo_url project_name : string)
    (commands : list string) (e : exn) :
  credentials_ok env = true ->
  fst (acquire_result env) = true ->
  is_returned (guarded (probe env) 30) = true ->
  clone_outcome env = Raised e ->
  fst (run env repo_url project_name commands) = Returned (clone_failure_report e) /\
  trace (snd (run env repo_url project_name commands)) =
    (acquire_events env (studio_name project_name repo_url) (teamspace env)
                    (user_param env) ++
     start_events env ++ probe_events ++ clone_events env repo_url)%list /\
  existsb is_stop (trace (snd (run env repo_url project_name commands))) = false.
Proof.
  intros Hc Ha Hp Hcl.
  destruct (run_eq env repo_url project_name commands Hc) as (Hr & Ht & _).
  rewrite Hr, Ht. unfold run_spec. rewrite Ha, Hcl. cbn [negb].
  destruct (guarded (probe env) 30); [|discriminate Hp]. cbn [fst snd].
  repeat split.
  rewrite !no_stop_app, no_stop_acquire, no_stop_start, no_stop_clone. reflexivity.
Qed.

Lemma clone_failure_ends_the_run_witness :
  credentials_ok env_clone_fails = true /\
  clone_outcome env_clone_fails = Raised (OtherError "repository not found") /\
  fst (run env_clone_fails sample_url "demo" install_then_test) =
    Returned (mkReport false [] ["Git clone failed: repository not found"]).
Proof.
  split; [reflexivity|]. split; [reflexivity|].
  apply (clone_failure_ends_the_run env_clone_fails sample_url "demo" install_then_test
           (OtherError "repository not found") eq_refl eq_refl eq_refl eq_refl).
Defined.

(** X8.  The pre-clean and the clone share one 120-second budget: when
    both would succeed, the clone stage goes on only if their durations
    add up to less than 120 seconds, and reports a clone timeout
    otherwise, even when each call alone takes less than 120 seconds. *)
Theorem clone_stage_shares_one_budget (env : Env) (repo_url : string) (w : World) :
  results w = initial_results ->
  is_returned (finish (preclean env)) = true ->
  is_returned (finish (clone env)) = true ->
  (duration (preclean env) + duration (clone env) < 120 ->
   fst (clone_repo env repo_url w) = Returned Proceed) /\
  (120 <= duration (preclean env) + duration (clone env) ->
   fst (clone_repo env repo_url w) =
     Returned (Return (mkReport false [] ["Git clone timed out (>120s)"]))).
Proof.
  intros Hr Hp Hc. rewrite (clone_repo_eq env repo_url w Hr). cbn [fst].
  unfold clone_outcome.
  destruct (finish (preclean env)) as [v|]; [|discriminate Hp].
  destruct (finish (clone env)) as [out|]; [|discriminate Hc].
  split; intros H.
  - destruct (Nat.ltb_spec (duration (preclean env)) 120); [|lia].
    destruct (Nat.ltb_spec (duration (clone env)) (120 - duration (preclean env)));
      [reflexivity|lia].
  - destruct (Nat.ltb_spec (duration (preclean env)) 120); [|reflexivity].
    destruct (Nat.ltb_spec (duration (clone env)) (120 - duration (preclean env)));
      [lia|reflexivity].
Qed.

Lemma clone_stage_shares_one_budget_witness :
  duration (preclean env_clone_slow) < 120 /\
  duration (clone env_clone_slow) < 120 /\
  fst (clone_repo env_clone_slow sample_url initial_world) =
    Returned (Return (mkReport false [] ["Git clone timed out (>120s)"])).
Proof.
  split; [cbn; lia|]. split; [cbn; lia|].
  apply (clone_stage_shares_one_budget env_clone_slow sample_url initial_world
           eq_refl eq_refl eq_refl).
  cbn. lia.
Defined.

(** X9.  The guard is not re-entrant: a guarded call made inside another
    guarded computation cancels the outer alarm when it returns, so what
    the outer computation does afterwards is no longer bounded; a later
    call comes back with its own outcome however long it takes and
    whatever the outer budget was. *)
Theorem inner_guard_cancels_outer_deadline (a c : Event) (r1 r2 : response)
    (b1 b2 : nat) (w : World) (v : string) :
  guarded r1 b1 = Returned v ->
  fst (run_with_timeout
         (bind (run_with_timeout (remote a r1) b1) (fun _ => remote c r2)) b2 w) =
  finish r2.
Proof.
  intros Hg.
  unfold run_with_timeout at 1.
  unfold bind at 1 2. unfold signal_signal, log, signal_alarm, try_except.
  cbn [trace alarm studio results].
  unfold bind at 1 2. rewrite run_with_timeout_remote, Hg.
  unfold remote, bind, ret, raise, signal_alarm. cbn [alarm trace studio results].
  destruct (finish r2) as [x|[m|m|m]]; reflexivity.
Qed.

Lemma inner_guard_cancels_outer_deadline_witness :
  guarded (answer 1 "ready") 30 = Returned "ready" /\
  fst (run_with_timeout
         (bind (run_with_timeout (remote StudioStart (answer 1 "ready")) 30)
               (fun _ => remote (StudioRun "sleep 1000") (answer 1000 "late")))
         10 initial_world) = Returned "late".
Proof.
  split; [reflexivity|].
  apply (inner_guard_cancels_outer_deadline StudioStart (StudioRun "sleep 1000")
           (answer 1 "ready") (answer 1000 "late") 30 10 initial_world "ready" eq_refl).
Defined.

(** ** The CommandResults and the verdict of the primary path *)

Lemma record_step_well_formed (env : Env) (i : nat) (c : string) (r : Report) :
  Forall well_formed_result (outputs r) ->
  Forall well_formed_result (outputs (record_step env i c r)).
Proof.
  intros Hr.
  destruct (record_step_capped env i c r) as (o & Ho & Hout & Herr).
  rewrite Ho. apply Forall_app. split; [assumption|].
  constructor; [|constructor].
  revert Ho Hout Herr. unfold record_step.
  destruct (command_outcome env i c) as [out|[m|m|m]];
    try destruct (install_class c); cbn [outputs append_output append_error set_success];
    intros Ho Hout Herr; apply app_inv_head in Ho; injection Ho as <-;
    unfold well_formed_result; cbn [cmd_success exitCode stdout stderr];
    repeat split; try discriminate; try reflexivity; try assumption; auto.
Qed.

(** X10.  Every CommandResult of a run's report is well formed: its
    success flag is true exactly when its exit indicator is 0, the exit
    indicator is 0, 1 or 124, a successful result has no error text, a
    failed one no output, and the output and error texts keep at most
    5000 and 2000 characters. *)
Theorem run_results_are_well_formed (env : Env) (repo_url project_name : string)
    (commands : list string) :
  exists r,
    fst (run env repo_url project_name commands) = Returned r /\
    Forall well_formed_result (outputs r).
Proof.
  eexists. split; [apply run_total|].
  destruct (final_report_shape env repo_url project_name commands)
    as [(_ & Ho & _)|(out & _ & ->)]; [rewrite Ho; constructor|].
  rewrite outputs_promote.
  apply (record_all_invariant env (fun r => Forall well_formed_result (outputs r))).
  - intros i c r. apply record_step_well_formed.
  - cbn. constructor; [|constructor].
    unfold well_formed_result, clone_result. cbn [cmd_success exitCode stdout stderr].
    repeat split; try discriminate; try reflexivity; auto.
    + pose proof (length_slice_to 1000 out). lia.
    + cbn. lia.
Qed.

Lemma record_step_success (env : Env) (i : nat) (c : string) (r : Report) :
  success (record_step env i c r) = success r && negb (stops env i c).
Proof.
  unfold record_step, stops, hard_failure.
  destruct (command_outcome env i c) as [out|[m|m|m]]; cbn;
    rewrite ?andb_false_r, ?andb_true_r; try reflexivity;
    destruct (install_class c); cbn; now rewrite ?andb_false_r, ?andb_true_r.
Qed.

Lemma stops_none_without_install (env : Env) (commands : list string) :
  forallb (fun c => negb (install_class c)) commands = true ->
  forall i j c, nth_error commands j = Some c -> stops env (i + j) c = false.
Proof.
  intros H i j c Hj. apply stops_not_install.
  rewrite forallb_forall in H. apply nth_error_In in Hj.
  specialize (H c Hj). now destruct (install_class c).
Qed.

Lemma record_all_success_without_stop (env : Env) (commands : list string) :
  forall i r,
    (forall j c, nth_error commands j = Some c -> stops env (i + j) c = false) ->
    success (record_all env i commands r) = success r.
Proof.
  induction commands as [|c rest IH]; intros i r H; [reflexivity|].
  cbn [record_all].
  pose proof (H 0 c eq_refl) as H0. rewrite Nat.add_0_r in H0. rewrite H0.
  rewrite IH.
  - now rewrite record_step_success, H0, andb_true_r.
  - intros j c' Hj. replace (S i + j) with (i + S j) by lia. now apply H.
Qed.

(** X11.  When no command of the list mentions "install" or "download",
    a run that reaches the pipeline attempts every command and reports
    overall success, whatever the commands do: even when every one of
    them fails or times out, the success flag stays true. *)
Theorem run_without_install_commands_succeeds (env : Env)
    (repo_url project_name : string) (commands : list string) :
  credentials_ok env = true ->
  fst (acquire_result env) = true ->
  is_returned (guarded (probe env) 30) = true ->
  is_returned (clone_outcome env) = true ->
  forallb (fun c => negb (install_class c)) commands = true ->
  exists r,
    fst (run env repo_url project_name commands) = Returned r /\
    success r = true /\
    map command (outputs r) = ("git clone " ++ repo_url) :: commands.
Proof.
  intros Hc Ha Hp Hcl Hn.
  destruct (run_eq env repo_url project_name commands Hc) as (Hr & _ & _).
  rewrite Hr. unfold run_spec. rewrite Ha. cbn [negb].
  destruct (guarded (probe env) 30); [|discriminate Hp].
  destruct (clone_outcome env) as [out|]; [|discriminate Hcl]. cbn [fst].
  pose proof (stops_none_without_install env commands Hn 0) as Hs.
  assert (Hsucc : success (record_all env 0 commands
                             (append_output (clone_result repo_url out)
                                            initial_results)) = true)
    by (now rewrite record_all_success_without_stop).
  eexists. split; [reflexivity|].
  rewrite (promote_success _ Hsucc). split; [assumption|].
  rewrite record_all_commands, (attempted_all env commands 0 Hs). reflexivity.
Qed.

Lemma run_without_install_commands_succeeds_witness :
  credentials_ok env_all_commands_fail = true /\
  failed env_all_commands_fail 0 "pytest" = true /\
  failed env_all_commands_fail 1 "ls" = true /\
  exists r,
    fst (run env_all_commands_fail sample_url "demo" ["pytest"; "ls"]) = Returned r /\
    success r = true /\
    map command (outputs r) = ("git clone " ++ sample_url) :: ["pytest"; "ls"].
Proof.
  split; [reflexivity|]. split; [reflexivity|]. split; [reflexivity|].
  apply (run_without_install_commands_succeeds env_all_commands_fail sample_url "demo"
           ["pytest"; "ls"] eq_refl eq_refl eq_refl eq_refl eq_refl).
Defined.

Lemma lower_app (a b : string) : lower (a ++ b) = lower a ++ lower b.
Proof. induction a as [|c a IH]; cbn; [reflexivity|now rewrite IH]. Qed.

Lemma contains_app_r (sub p s : string) :
  contains sub s = true -> contains sub (p ++ s) = true.
Proof.
  intros H. induction p as [|c p IH]; [assumption|].
  cbn [append contains]. rewrite IH. apply orb_true_r.
Qed.

Lemma record_step_grows (env : Env) (i : nat) (c : string) (r : Report) :
  exists l, outputs (record_step env i c r) = (outputs r ++ l)%list.
Proof.
  destruct (record_step_capped env i c r) as (o & Ho & _). now exists [o].
Qed.

Lemma record_all_grows (env : Env) (commands : list string) :
  forall i r, exists l, outputs (record_all env i commands r) = (outputs r ++ l)%list.
Proof.
  induction commands as [|c rest IH]; intros i r; cbn [record_all].
  - exists []. now rewrite app_nil_r.
  - destruct (stops env i c); [apply record_step_grows|].
    destruct (IH (S i) (record_step env i c r)) as [l Hl].
    destruct (record_step_grows env i c r) as [l' Hl'].
    exists (l' ++ l)%list. now rewrite Hl, Hl', app_assoc.
Qed.

(** X12.  The clone result counts for the promotion rule: when the
    repository URL itself contains "install" (in any case), every run
    whose clone succeeds reports overall success, also when an install
    command of the list fails and stops the pipeline. *)
Theorem install_in_url_promotes_every_run (env : Env) (repo_url project_name : string)
    (commands : list string) :
  credentials_ok env = true ->
  fst (acquire_result env) = true ->
  is_returned (guarded (probe env) 30) = true ->
  is_returned (clone_outcome env) = true ->
  contains "install" (lower repo_url) = true ->
  exists r,
    fst (run env repo_url project_name commands) = Returned r /\ success r = true.
Proof.
  intros Hc Ha Hp Hcl Hu.
  destruct (run_eq env repo_url project_name commands Hc) as (Hr & _ & _).
  rewrite Hr. unfold run_spec. rewrite Ha. cbn [negb].
  destruct (guarded (probe env) 30); [|discriminate Hp].
  destruct (clone_outcome env) as [out|]; [|discriminate Hcl]. cbn [fst].
  eexists. split; [reflexivity|].
  rewrite promote_cases.
  destruct (success (record_all env 0 commands _)) eqn:Hs; cbn [negb andb];
    [assumption|].
  destruct (record_all_grows env commands 0
              (append_output (clone_result repo_url out) initial_results)) as [l Hl].
  assert (Hi : install_succeeded
                 (record_all env 0 commands
                    (append_output (clone_result repo_url out) initial_results)) = true).
  { apply install_succeeded_iff. exists (clone_result repo_url out).
    split; [rewrite Hl; cbn; now left|].
    split; [reflexivity|].
    cbn [clone_result command]. rewrite lower_app. now apply contains_app_r. }
  now rewrite Hi.
Qed.

Lemma install_in_url_promotes_every_run_witness :
  credentials_ok env_install_fails = true /\
  hard_failure env_install_fails 0 "pip install x" = true /\
  exists r,
    fst (run env_install_fails installer_url "demo" install_then_test) = Returned r /\
    success r = true.
Proof.
  split; [reflexivity|]. split; [reflexivity|].
  apply (install_in_url_promotes_every_run env_install_fails installer_url "demo"
           install_then_test eq_refl eq_refl eq_refl eq_refl eq_refl).
Defined.

(** ** The command-line fallback, case by case *)

(** X13.  The fallback is gated by the version check: unless
    [lightning --version] comes back in time with status 0, that check is
    the only call made (no script is written or run) and the fallback
    reports failure with no CommandResult; a non-zero status is reported
    as "Lightning CLI not available". *)
Theorem version_check_gates_the_fallback (env : Env) (repo_url project_name : string)
    (commands : list string) (w : World) :
  version_ok env = false ->
  trace (snd (execute_via_cli env repo_url project_name commands w)) =
    (trace w ++ [CliVersion])%list /\
  (exists r,
     fst (execute_via_cli env repo_url project_name commands w) = Returned r /\
     success r = false /\ outputs r = [] /\ errors r <> []) /\
  (forall v,
     (p_duration (cli_version env) <? 10)%nat = true ->
     p_finish (cli_version env) = Returned v ->
     fst (execute_via_cli env repo_url project_name commands w) =
       Returned (mkReport false [] ["Lightning CLI not available"])).
Proof.
  unfold version_ok. intros H. unfold_cli.
  destruct (p_duration (cli_version env) <? 10)%nat; cbn [andb] in H.
  - destruct (p_finish (cli_version env)) as [v|[m|m|m]].
    + rewrite H. cbn. split; [reflexivity|]. split.
      * eexists. repeat split. discriminate.
      * intros v' _ [= <-]. reflexivity.
    + cbn. split; [reflexivity|]. split; [|discriminate].
      eexists. repeat split. discriminate.
    + cbn. split; [reflexivity|]. split; [|discriminate].
      eexists. repeat split. discriminate.
    + cbn. split; [reflexivity|]. split; [|discriminate].
      eexists. repeat split. discriminate.
  - cbn. split; [reflexivity|]. split; [|discriminate].
    eexists. repeat split. discriminate.
Qed.

Lemma version_check_gates_the_fallback_witness :
  version_ok env_cli_unavailable = false /\
  trace (snd (execute_via_cli env_cli_unavailable sample_url "demo" install_then_test
                initial_world)) = [CliVersion].
Proof.
  split; [reflexivity|].
  apply (version_check_gates_the_fallback env_cli_unavailable sample_url "demo"
           install_then_test initial_world eq_refl).
Defined.

Lemma version_ok_inv (env : Env) :
  version_ok env = true ->
  (p_duration (cli_version env) <? 10)%nat = true /\
  exists v, p_finish (cli_version env) = Returned v /\ (returncode v =? 0)%Z = true.
Proof.
  unfold version_ok. intros H. apply andb_true_iff in H as [Hd Hf].
  split; [assumption|].
  destruct (p_finish (cli_version env)) as [v|]; [|discriminate]. now exists v.
Qed.

(** X14.  The temporary script is removed only when the script run comes
    back: once the version check has passed and the script is written,
    the calls made are the check, the write and the run, followed by the
    removal exactly when the run returned within its 600 seconds, with
    whatever status.  A run that times out or cannot be launched leaves
    the script file behind. *)
Theorem script_is_removed_only_after_a_returned_run (env : Env)
    (repo_url project_name : string) (commands : list string) (w : World) :
  version_ok env = true ->
  write_script env = Returned tt ->
  trace (snd (execute_via_cli env repo_url project_name commands w)) =
    (trace w ++ cli_events_to_run env repo_url commands ++
     (if script_run_returns env then [RemoveFile (script_path env)] else []))%list.
Proof.
  intros Hv Hw. apply version_ok_inv in Hv as (Hd & v & Hf & Hrc).
  unfold script_run_returns, cli_events_to_run. unfold_cli.
  rewrite Hd, Hf, Hrc, Hw. cbn -[Nat.ltb Z.eqb String.append script_content script_path].
  destruct (p_duration (cli_run env) <? 600)%nat;
    cbn -[Nat.ltb Z.eqb String.append script_content script_path].
  - destruct (p_finish (cli_run env)) as [p|[m|m|m]];
      cbn -[Nat.ltb Z.eqb String.append script_content script_path];
      try (rewrite <- !app_assoc; reflexivity).
    destruct (remove_script env) as [[]|[m|m|m]];
      cbn -[Nat.ltb Z.eqb String.append script_content script_path];
      try destruct (returncode p =? 0)%Z; cbn; rewrite <- !app_assoc; reflexivity.
  - rewrite <- !app_assoc. reflexivity.
Qed.

Lemma script_is_removed_only_after_a_returned_run_witness :
  version_ok env_cli_hangs = true /\
  script_run_returns env_cli_hangs = false /\
  existsb is_remove
    (trace (snd (execute_via_cli env_cli_hangs sample_url "demo" install_then_test
                   initial_world))) = false.
Proof.
  split; [reflexivity|]. split; [reflexivity|].
  rewrite (script_is_removed_only_after_a_returned_run env_cli_hangs sample_url "demo"
             install_then_test initial_world eq_refl eq_refl).
  reflexivity.
Defined.

(** X15.  After a passed version check and a written script, a script
    run that comes back in time with a non-zero status is reported
    according to what the removal of the script file does next.  When the
    removal succeeds, the report holds one failed "all_commands" result
    that carries the status as its exit indicator together with the
    captured output and error text, and one error string built from the
    error text.  When the removal raises, the status and the captured
    texts are lost: the report holds no CommandResult and the one error
    names the removal's failure. *)
Theorem nonzero_script_status_is_reported (env : Env) (repo_url project_name : string)
    (commands : list string) (w : World) (p : CompletedProcess) :
  version_ok env = true ->
  write_script env = Returned tt ->
  (p_duration (cli_run env) <? 600)%nat = true ->
  p_finish (cli_run env) = Returned p ->
  returncode p <> 0%Z ->
  (remove_script env = Returned tt ->
   fst (execute_via_cli env repo_url project_name commands w) =
     Returned
       (mkReport false
          [mkResult "all_commands" (p_stdout p) (p_stderr p) (returncode p) false]
          ["CLI execution failed: " ++ p_stderr p])) /\
  (forall m,
     remove_script env = Raised (OtherError m) ->
     fst (execute_via_cli env repo_url project_name commands w) =
       Returned (mkReport false [] ["CLI execution error: " ++ m])).
Proof.
  intros Hv Hw Hd Hf Hn. apply version_ok_inv in Hv as (Hd' & v & Hf' & Hrc).
  apply Z.eqb_neq in Hn.
  split.
  - intros Hr. unfold_cli. rewrite Hd', Hf', Hrc, Hw, Hd, Hf, Hr, Hn. reflexivity.
  - intros m Hr. unfold_cli. rewrite Hd', Hf', Hrc, Hw, Hd, Hf, Hr. reflexivity.
Qed.

Lemma nonzero_script_status_is_reported_witness :
  version_ok env_cli_exit_2 = true /\
  fst (execute_via_cli env_cli_exit_2 sample_url "demo" install_then_test initial_world) =
    Returned
      (mkReport false [mkResult "all_commands" "partial" "pytest: 1 failed" 2 false]
                ["CLI execution failed: pytest: 1 failed"]).
Proof.
  split; [reflexivity|].
  assert (Hn : 2%Z <> 0%Z) by discriminate.
  apply (proj1 (nonzero_script_status_is_reported env_cli_exit_2 sample_url "demo"
                  install_then_test initial_world (mkProc 2 "partial" "pytest: 1 failed")
                  eq_refl eq_refl eq_refl eq_refl Hn)).
  reflexivity.
Defined.

(** X16.  The fallback never raises.  Its report succeeds exactly when
    its error list is empty, holds at most one CommandResult, and that
    result is labelled "all_commands" and has the report's own verdict. *)
Theorem fallback_report_is_consistent (env : Env) (repo_url project_name : string)
    (commands : list string) (w : World) :
  exists r,
    fst (execute_via_cli env repo_url project_name commands w) = Returned r /\
    (success r = true <-> errors r = []) /\
    List.length (outputs r) <= 1 /\
    Forall (fun o => command o = "all_commands" /\ cmd_success o = success r)
           (outputs r).
Proof.
  unfold_cli.
  destruct (p_duration (cli_version env) <? 10)%nat;
    [|eexists; split; [reflexivity|]; cbn; repeat split; auto; discriminate].
  destruct (p_finish (cli_version env)) as [v|[m|m|m]];
    try (eexists; split; [reflexivity|]; cbn; repeat split; auto; discriminate).
  destruct (returncode v =? 0)%Z;
    cbn -[Nat.ltb Z.eqb String.append script_content script_path];
    [|eexists; split; [reflexivity|]; cbn; repeat split; auto; discriminate].
  destruct (write_script env) as [[]|[m|m|m]];
    try (eexists; split; [reflexivity|]; cbn; repeat split; auto; discriminate).
  destruct (p_duration (cli_run env) <? 600)%nat;
    [|eexists; split; [reflexivity|]; cbn; repeat split; auto; discriminate].
  destruct (p_finish (cli_run env)) as [p|[m|m|m]];
    try (eexists; split; [reflexivity|]; cbn; repeat split; auto; discriminate).
  destruct (remove_script env) as [[]|[m|m|m]];
    try (eexists; split; [reflexivity|]; cbn; repeat split; auto; discriminate).
  destruct (returncode p =? 0)%Z;
    eexists; (split; [reflexivity|]); cbn; repeat split; auto; discriminate.
Qed.

(** ** The outer handler when the fallback does not succeed *)

Lemma stop_keeps_results (r : response) (w : World) :
  exists w',
    try_except (bind (remote StudioStop r) (fun _ => ret tt)) (fun _ => ret tt) w =
      (Returned tt, w') /\
    results w' = results w /\
    trace w' = (trace w ++ [StudioStop])%list.
Proof.
  unfold_monad.
  destruct (alarm w) as [b|]; [destruct (duration r <? b)%nat|];
    try destruct (finish r); eexists; repeat split.
Qed.

Lemma execute_via_cli_keeps_results (env : Env) (repo_url project_name : string)
    (commands : list string) (w : World) :
  results (snd (execute_via_cli env repo_url project_name commands w)) = results w.
Proof.
  unfold_cli.
  destruct (p_duration (cli_version env) <? 10)%nat; [|reflexivity].
  destruct (p_finish (cli_version env)) as [v|[m|m|m]]; try reflexivity.
  destruct (returncode v =? 0)%Z;
    cbn -[Nat.ltb Z.eqb String.append script_content script_path]; [|reflexivity].
  destruct (write_script env) as [[]|[m|m|m]]; try reflexivity.
  destruct (p_duration (cli_run env) <? 600)%nat; [|reflexivity].
  destruct (p_finish (cli_run env)) as [p|[m|m|m]]; try reflexivity.
  destruct (remove_script env) as [[]|[m|m|m]]; try reflexivity.
  destruct (returncode p =? 0)%Z; reflexivity.
Qed.

(** X17.  When an error escaped the primary path and the fallback is
    switched off or fails, the outer handler returns the primary report
    marked as failed: its CommandResults are kept as they were, and its
    errors are the primary errors, then the SDK failure message, then the
    fallback's own errors when the fallback ran.  With the fallback
    switched off the only call the handler makes is the studio stop, and
    only when a studio had been acquired. *)
Theorem handler_merges_the_errors (env : Env) (repo_url project_name : string)
    (commands : list string) (e : exn) (w : World) :
  exists cli,
    fst (execute_via_cli env repo_url project_name commands initial_world) =
      Returned cli /\
    (use_cli_fallback env = false ->
     fst (sdk_failure_handler env repo_url project_name commands e w) =
       Returned (mkReport false (outputs (results w))
                          (errors (results w) ++ [sdk_failure_message e])) /\
     trace (snd (sdk_failure_handler env repo_url project_name commands e w)) =
       (trace w ++ (if studio w then [StudioStop] else []))%list) /\
    (use_cli_fallback env = true ->
     success cli = false ->
     fst (sdk_failure_handler env repo_url project_name commands e w) =
       Returned (mkReport false (outputs (results w))
                          (errors (results w) ++
                           sdk_failure_message e :: errors cli))).
Proof.
  destruct (fallback_report_is_consistent env repo_url project_name commands
              initial_world) as (cli & Hcli & _).
  exists cli. split; [assumption|].
  unfold sdk_failure_handler.
  erewrite bind_returned by reflexivity.
  erewrite bind_returned by reflexivity.
  erewrite bind_returned by reflexivity.
  match goal with
  | |- context [bind ?stopping _ ?w0] =>
      assert (Hstop : exists w', stopping w0 = (Returned tt, w') /\
                                 results w' = results w0 /\
                                 trace w' = (trace w0 ++
                                             (if studio w then [StudioStop] else []))%list)
  end.
  { cbn [studio]. destruct (studio w); [apply stop_keeps_results|].
    eexists. split; [reflexivity|]. split; [reflexivity|].
    cbn. now rewrite app_nil_r. }
  destruct Hstop as (w' & Hstop & Hres & Htr).
  erewrite !bind_returned by exact Hstop.
  cbn [results trace modify_results set_success append_error] in Hres, Htr.
  split.
  - intros ->. unfold get_results. cbn [fst snd]. rewrite Hres, Htr.
    split; reflexivity.
  - intros -> Hs. unfold bind.
    pose proof (execute_via_cli_world_independent env repo_url project_name commands
                  w' initial_world) as Hi.
    pose proof (execute_via_cli_keeps_results env repo_url project_name commands w')
      as Hk.
    rewrite Hcli in Hi.
    destruct (execute_via_cli env repo_url project_name commands w') as [o w''].
    cbn [fst snd] in Hi, Hk. subst o. rewrite Hs.
    unfold modify_results, get_results. cbn [fst results].
    rewrite Hk, Hres.
    unfold extend_errors, append_error, set_success, sdk_failure_message.
    cbn [success outputs errors]. now rewrite <- app_assoc.
Qed.

(** ** The studio name *)

Lemma slice_to_app_long (n : nat) (a b : string) :
  n <= String.length a -> slice_to n (a ++ b) = slice_to n a.
Proof.
  revert a. induction n as [|n IH]; intros [|c a] H; cbn in *; try reflexivity.
  - lia.
  - f_equal. apply IH. lia.
Qed.

(** X18.  The studio name keeps only the first 50 characters of
    "<project>-<repo>": a project name of 50 characters or more gives the
    same studio name for every repository URL. *)
Theorem long_project_name_hides_the_repository (project_name url1 url2 : string) :
  50 <= String.length project_name ->
  studio_name project_name url1 = studio_name project_name url2.
Proof.
  intros H. unfold studio_name. now rewrite !slice_to_app_long.
Qed.

Lemma long_project_name_hides_the_repository_witness :
  50 <= String.length long_project_name /\
  studio_name long_project_name "https://github.com/u/one.git" =
  studio_name long_project_name "https://github.com/u/two.git".
Proof.
  split; [unfold long_project_name; rewrite length_repeat_char; lia|].
  apply (long_project_name_hides_the_repository long_project_name).
  unfold long_project_name. rewrite length_repeat_char. lia.
Defined.

Lemma rstrip_trailing (c : ascii) (s : string) :
  rstrip c (s ++ String c "") = rstrip c s.
Proof.
  induction s as [|a s IH]; cbn [append rstrip].
  - cbn. now rewrite Ascii.eqb_refl.
  - now rewrite IH.
Qed.

(** X19.  A trailing slash of the repository URL does not matter: the
    URL with and without it give the same repository name and the same
    studio name. *)
Theorem trailing_slash_is_ignored (project_name repo_url : string) :
  repo_name (repo_url ++ "/") = repo_name repo_url /\
  studio_name project_name (repo_url ++ "/") = studio_name project_name repo_url.
Proof.
  assert (H : repo_name (repo_url ++ "/") = repo_name repo_url).
  { unfold repo_name. now rewrite rstrip_trailing. }
  split; [assumption|]. unfold studio_name. now rewrite H.
Qed.

(** ** The entry point *)

(** X20.  [main] always ends with a report and an exit status: the status
    is 0 exactly when the report's overall success flag is true and 1
    otherwise.  With fewer than three arguments after the script name it
    prints the usage report, exits with 1 and makes no call; otherwise the
    report is the one of the run on the first argument as URL, the second
    as project name and the remaining ones as commands. *)
Theorem main_exit_status (env : Env) (argv : list string) :
  exists r code,
    fst (main env argv initial_world) = Returned (r, code) /\
    (code = 0%Z <-> success r = true) /\
    (code = 0%Z \/ code = 1%Z) /\
    (List.length argv < 4 ->
     r = usage_report /\ snd (main env argv initial_world) = initial_world) /\
    (4 <= List.length argv ->
     fst (run env (nth 1 argv "") (nth 2 argv "") (skipn 3 argv)) = Returned r).
Proof.
  unfold main.
  destruct (Nat.ltb_spec (List.length argv) 4) as [Hlt|Hge].
  - exists usage_report, 1%Z. cbn. repeat split; try discriminate; auto; lia.
  - pose proof (run_total env (nth 1 argv "") (nth 2 argv "") (skipn 3 argv)) as Hr.
    unfold run in Hr |- *. unfold bind.
    destruct (execute_in_cloud env (nth 1 argv "") (nth 2 argv "") (skipn 3 argv)
                initial_world) as [o w'].
    cbn [fst] in Hr. subst o. cbn [fst ret].
    eexists _, _. split; [reflexivity|].
    destruct (success (final_report _ _ _ _)); repeat split;
      try discriminate; auto; lia.
Qed.

(** ** Errors and credentials *)

Lemma record_step_error_count (env : Env) (i : nat) (c : string) (r : Report) :
  List.length (errors r) = List.length (failed_results r) ->
  List.length (errors (record_step env i c r)) =
  List.length (failed_results (record_step env i c r)).
Proof.
  unfold failed_results, record_step. intros H.
  destruct (command_outcome env i c) as [out|[m|m|m]];
    try destruct (install_class c);
    cbn [outputs errors append_output append_error set_success];
    rewrite filter_app, !length_app; cbn; lia.
Qed.

(** X21.  In the report of a run that reached the pipeline there is one
    error string per failed CommandResult, followed at most by the
    promotion note. *)
Theorem one_error_per_failed_command (env : Env) (repo_url project_name : string)
    (commands : list string) :
  exists r,
    fst (run env repo_url project_name commands) = Returned r /\
    (outputs r <> [] ->
     exists es,
       (errors r = es \/ errors r = (es ++ [promotion_note])%list) /\
       List.length es = List.length (failed_results r)).
Proof.
  eexists. split; [apply run_total|].
  destruct (final_report_shape env repo_url project_name commands)
    as [(_ & Ho & _)|(out & _ & ->)]; [now rewrite Ho|].
  intros _.
  assert (H : List.length
                (errors (record_all env 0 commands
                           (append_output (clone_result repo_url out) initial_results))) =
              List.length
                (failed_results
                   (record_all env 0 commands
                      (append_output (clone_result repo_url out) initial_results)))).
  { apply (record_all_invariant env
             (fun r => List.length (errors r) = List.length (failed_results r))).
    - intros i c r. apply record_step_error_count.
    - reflexivity. }
  eexists. split.
  - rewrite promote_cases. destruct (negb _ && _); [right|left]; reflexivity.
  - rewrite H. unfold failed_results. now rewrite outputs_promote.
Qed.

(** X22.  The account passed to the studio constructors is the user name
    when it is set and not empty, and the user id otherwise; the teamspace
    is the configured one, "Vision-model" when none is configured.  The
    first call of a run with usable credentials is the connect attempt
    with exactly these. *)
Theorem credentials_resolution (env : Env) (repo_url project_name : string)
    (commands : list string) :
  credentials_ok env = true ->
  hd_error (trace (snd (run env repo_url project_name commands))) =
    Some (StudioConnect (studio_name project_name repo_url) (teamspace env)
                        (user_param env)) /\
  (truthy (LIGHTNING_USERNAME env) = true ->
   LIGHTNING_USERNAME env = Some (user_param env)) /\
  (truthy (LIGHTNING_USERNAME env) = false ->
   LIGHTNING_USER_ID env = Some (user_param env)) /\
  (LIGHTNING_TEAMSPACE env = None -> teamspace env = "Vision-model") /\
  (forall t, LIGHTNING_TEAMSPACE env = Some t -> teamspace env = t).
Proof.
  intros Hc.
  destruct (run_eq env repo_url project_name commands Hc) as (_ & Ht & _).
  destruct (credentials_ok_user env Hc) as (_ & Hu & _).
  split; [|split; [|split; [|split]]].
  - rewrite Ht. unfold run_spec, acquire_events.
    destruct (negb _); [reflexivity|].
    destruct (guarded (probe env) 30); [destruct (clone_outcome env)|]; reflexivity.
  - intros H. unfold py_or in Hu. now rewrite H in Hu.
  - intros H. unfold py_or in Hu. now rewrite H in Hu.
  - unfold teamspace. now intros ->.
  - unfold teamspace. now intros t ->.
Qed.

Lemma credentials_resolution_witness :
  credentials_ok env_user_id_only = true /\
  hd_error (trace (snd (run env_user_id_only sample_url "demo" install_then_test))) =
    Some (StudioConnect "demo-repo" "research" "u-42").
Proof.
  split; [reflexivity|].
  apply (credentials_resolution env_user_id_only sample_url "demo" install_then_test
           eq_refl).
Defined.

(** ** The studio name on Unicode text *)

Lemma unicode_starts_with_one (a c : N) (s : Unicode.text) :
  Unicode.starts_with [a] (c :: s) = N.eqb a c.
Proof. cbn. apply andb_true_r. Qed.

Lemma unicode_replace_space_length (s : Unicode.text) :
  List.length (Unicode.replace [Unicode.space] [Unicode.hyphen] s) = List.length s.
Proof.
  unfold Unicode.replace. induction s as [|c s IH]; [reflexivity|].
  cbn [Unicode.replace_from]. rewrite unicode_starts_with_one.
  destruct (N.eqb Unicode.space c); cbn; now rewrite IH.
Qed.

(** Before it is lowered, the name has at most 50 characters, for every
    project name and repository URL. *)
Lemma unicode_name_is_cut_before_lowering (project_name repo_url : Unicode.text) :
  List.length
    (Unicode.replace [Unicode.space] [Unicode.hyphen]
       (Unicode.cut_name project_name repo_url)) <= 50.
Proof.
  rewrite unicode_replace_space_length. unfold Unicode.cut_name, Unicode.slice_to.
  apply firstn_le_length.
Qed.

Lemma unicode_lower_from_length (t : Unicode.case_table) (s rest : Unicode.text) :
  forall i,
    (forall j c, In c rest -> List.length (t s j c) = 1) ->
    List.length (Unicode.lower_from t s i rest) = List.length rest.
Proof.
  induction rest as [|c rest IH]; intros i H; [reflexivity|].
  cbn [Unicode.lower_from]. rewrite length_app, H by (now left).
  rewrite IH; [reflexivity|]. intros j c' Hc. apply H. now right.
Qed.

(** Where every character of the cut name lowers to one character, as
    every ASCII character does, the studio name keeps the bound. *)
Lemma unicode_name_within_50_when_lowering_keeps_length (t : Unicode.case_table)
    (project_name repo_url : Unicode.text) :
  (forall s j c,
     In c (Unicode.replace [Unicode.space] [Unicode.hyphen]
             (Unicode.cut_name project_name repo_url)) ->
     List.length (t s j c) = 1) ->
  List.length (Unicode.studio_name t project_name repo_url) <= 50.
Proof.
  intros H. unfold Unicode.studio_name, Unicode.lower.
  rewrite unicode_lower_from_length by (intros j c Hc; now apply H).
  apply unicode_name_is_cut_before_lowering.
Qed.

Lemma unicode_cut_of_long_name (n : nat) (c : N) (rest : Unicode.text) :
  Unicode.slice_to n (repeat c n ++ rest)%list = repeat c n.
Proof.
  unfold Unicode.slice_to. induction n as [|n IH]; [reflexivity|].
  cbn. now rewrite IH.
Qed.

Lemma unicode_replace_no_space (n : nat) :
  Unicode.replace [Unicode.space] [Unicode.hyphen] (repeat Unicode.capital_dotted_I n) =
  repeat Unicode.capital_dotted_I n.
Proof.
  unfold Unicode.replace. induction n as [|n IH]; [reflexivity|].
  cbn [repeat Unicode.replace_from]. rewrite unicode_starts_with_one.
  cbn. now rewrite IH.
Qed.

Lemma unicode_lower_dotted_length (t : Unicode.case_table) (s : Unicode.text) (n : nat) :
  (forall s' i, t s' i Unicode.capital_dotted_I = Unicode.small_i_dot_above) ->
  forall i,
    List.length (Unicode.lower_from t s i (repeat Unicode.capital_dotted_I n)) = 2 * n.
Proof.
  intros H. induction n as [|n IH]; intros i; [reflexivity|].
  cbn [repeat Unicode.lower_from]. rewrite length_app, H, IH. cbn. lia.
Qed.

(** C8, at the failing input.  Python lowers U+0130 to two code points.
    For a project name of fifty such letters, and any repository URL, the
    name cut to 50 characters is the project name itself, still 50
    characters long; lower-casing it afterwards gives a studio name of
    100 characters. *)
Theorem studio_name_exceeds_50_characters (lower_ucs4 : Unicode.case_table)
    (repo_url : Unicode.text) :
  (forall s i, lower_ucs4 s i Unicode.capital_dotted_I = Unicode.small_i_dot_above) ->
  List.length Unicode.dotted_name = 50 /\
  Unicode.cut_name Unicode.dotted_name repo_url = Unicode.dotted_name /\
  List.length (Unicode.studio_name lower_ucs4 Unicode.dotted_name repo_url) = 100.
Proof.
  intros H. unfold Unicode.dotted_name.
  assert (Hcut : Unicode.cut_name (repeat Unicode.capital_dotted_I 50) repo_url =
                 repeat Unicode.capital_dotted_I 50).
  { unfold Unicode.cut_name. apply unicode_cut_of_long_name. }
  split; [apply repeat_length|]. split; [exact Hcut|].
  unfold Unicode.studio_name, Unicode.lower.
  rewrite Hcut, unicode_replace_no_space.
  now rewrite unicode_lower_dotted_length.
Qed.

Lemma studio_name_exceeds_50_characters_witness :
  (forall s i,
     Unicode.sample_table s i Unicode.capital_dotted_I = Unicode.small_i_dot_above) /\
  List.length
    (Unicode.studio_name Unicode.sample_table Unicode.dotted_name
       (Unicode.of_ascii sample_url)) = 100.
Proof.
  split; [reflexivity|].
  apply (studio_name_exceeds_50_characters Unicode.sample_table
           (Unicode.of_ascii sample_url)).
  reflexivity.
Defined.

(** On ASCII text the Unicode derivation gives the name the 8-bit one
    gives. *)
Example unicode_studio_name_ascii :
  Unicode.studio_name Unicode.sample_table (Unicode.of_ascii "My Project")
    (Unicode.of_ascii "https://github.com/u/My Repo.git/") =
  Unicode.of_ascii
    (studio_name "My Project" "https://github.com/u/My Repo.git/").
Proof. reflexivity. Qed.

(** ** Worked examples of the string operations *)

Example lower_ex : PyStr.lower "PIP Install-X9" = "pip install-x9".
Proof. reflexivity. Qed.
Example contains_ex : PyStr.contains "install" "pip install x" = true.
Proof. reflexivity. Qed.
Example contains_ex2 : PyStr.contains "install" "pytest" = false.
Proof. reflexivity. Qed.
Example replace_ex : PyStr.replace ".git" "" "repo.git" = "repo".
Proof. reflexivity. Qed.
Example replace_ex2 : PyStr.replace " " "-" "a b  c" = "a-b--c".
Proof. reflexivity. Qed.
Example rstrip_ex : PyStr.rstrip "/" "https://h/u/r//" = "https://h/u/r".
Proof. reflexivity. Qed.
Example split_last_ex : PyStr.split_last "/" "https://h/u/r.git" = "r.git".
Proof. reflexivity. Qed.
Example of_nat_ex : PyStr.of_nat 630 = "630" /\ PyStr.of_nat 0 = "0".
Proof. split; reflexivity. Qed.
Example join_ex : PyStr.join "," ["a"; "b"; "c"] = "a,b,c".
Proof. reflexivity. Qed.
